(** * The local file connector and the direct question-answering entry point

    A shallow embedding of
    - [backend/danswer/connectors/file/connector.py]: the traversal of
      [.zip], [.txt] and tar locations, the per-member document builder
      [_process_file] and the batching generator [load_from_state];
    - [backend/danswer/direct_qa/answer_question.py]: [answer_question].

    Python generators are modelled by their traces ([gen]): the values they
    yield, in order, closed by a normal return or by the exception that
    leaves them.  Fallible calls return [result].  Everything the two
    modules import from elsewhere (helpers of [danswer.connectors.file.utils],
    the configuration constants, the file system, [json.loads], the
    retrieval and model back ends) is a field of an environment class. *)

From Stdlib Require Import List String Ascii ZArith Lia Bool Arith.
Import ListNotations.
Local Open Scope Z_scope.

Set Implicit Arguments.
Set Warnings "-register-all".

(* ================================================================== *)
(** * Exceptions and results *)

(** The exception classes the modelled code raises itself, [External] for
    whatever a collaborator raises (class name and message), and
    [Interrupt] for what a collaborator raises that does not derive from
    [Exception]: KeyboardInterrupt, SystemExit, GeneratorExit and their
    like. *)
Inductive exn : Type :=
| UnicodeDecodeError
| AttributeError
| IndexError
| ValueError (msg : string)
| External (cls msg : string)
| Interrupt (cls msg : string).

(** [isinstance(e, Exception)]: what [except Exception] catches. *)
Definition is_exception (e : exn) : bool :=
  match e with
  | Interrupt _ _ => false
  | _ => true
  end.

Inductive result (A : Type) : Type :=
| Ok (a : A)
| Err (e : exn).
Arguments Ok {A} a.
Arguments Err {A} e.

Definition rbind {A B : Type} (r : result A) (k : A -> result B) : result B :=
  match r with
  | Ok a => k a
  | Err e => Err e
  end.

Declare Scope py_scope.
Delimit Scope py_scope with py.
Notation "x <- c ;; k" := (rbind c (fun x => k))
  (at level 61, c at next level, right associativity) : py_scope.
Notation "' pat <- c ;; k" := (rbind c (fun x => match x with pat => k end))
  (at level 61, pat pattern, c at next level, right associativity) : py_scope.

(* ================================================================== *)
(** * Generators as traces *)

(** [gen Y R]: what a consumer that drains a generator observes.  [Return]
    is StopIteration (with the value handed to the enclosing loop), [Raise]
    an exception leaving the generator, [Yield] one yielded item. *)
Inductive gen (Y R : Type) : Type :=
| Return (r : R)
| Raise (e : exn)
| Yield (y : Y) (rest : gen Y R).
Arguments Return {Y R} r.
Arguments Raise {Y R} e.
Arguments Yield {Y R} y rest.

Fixpoint gbind {Y R S : Type} (g : gen Y R) (k : R -> gen Y S) : gen Y S :=
  match g with
  | Return r => k r
  | Raise e => Raise e
  | Yield y rest => Yield y (gbind rest k)
  end.

Declare Scope gen_scope.
Delimit Scope gen_scope with gen.
Notation "x <~ c ;; k" := (gbind c (fun x => k))
  (at level 61, c at next level, right associativity) : gen_scope.

(** The items a generator yields before it stops. *)
Fixpoint yielded {Y R : Type} (g : gen Y R) : list Y :=
  match g with
  | Return _ => []
  | Raise _ => []
  | Yield y rest => y :: yielded rest
  end.

(** How a generator ends: [None] for a normal return. *)
Fixpoint raised {Y R : Type} (g : gen Y R) : option exn :=
  match g with
  | Return _ => None
  | Raise e => Some e
  | Yield _ rest => raised rest
  end.

(** A generator that yields the items of a list and returns. *)
Fixpoint gen_of_list {Y : Type} (l : list Y) : gen Y unit :=
  match l with
  | [] => Return tt
  | y :: l' => Yield y (gen_of_list l')
  end.

(* ================================================================== *)
(** * Python strings

    A [str] is a [string] holding the text in UTF-8; [bytes] is a list of
    bytes. *)

Definition nl : string := String "010"%char EmptyString.
Definition dquote : string := String "034"%char EmptyString.

Definition startswith (s pre : string) : bool := String.prefix pre s.

Fixpoint str_drop (n : nat) (s : string) : string :=
  match n, s with
  | O, _ => s
  | S n', String _ s' => str_drop n' s'
  | S _, EmptyString => EmptyString
  end.

(** [s.replace(old, new, 1)]: the leftmost occurrence only. *)
Fixpoint replace_first (old new s : string) : string :=
  if String.prefix old s then String.append new (str_drop (String.length old) s)
  else match s with
       | EmptyString => EmptyString
       | String c s' => String c (replace_first old new s')
       end.

(** The code points [str.isspace] accepts, in UTF-8: what [str.strip()]
    removes at both ends. *)
Definition bytes_str (l : list nat) : list ascii := map ascii_of_nat l.

Definition whitespace_seqs : list (list ascii) :=
  map bytes_str
    [ [9]; [10]; [11]; [12]; [13]; [28]; [29]; [30]; [31]; [32];
      [194; 133]; [194; 160]; [225; 154; 128];
      [226; 128; 128]; [226; 128; 129]; [226; 128; 130]; [226; 128; 131];
      [226; 128; 132]; [226; 128; 133]; [226; 128; 134]; [226; 128; 135];
      [226; 128; 136]; [226; 128; 137]; [226; 128; 138];
      [226; 128; 168]; [226; 128; 169]; [226; 128; 175];
      [226; 129; 159]; [227; 128; 128] ]%nat.

Fixpoint strip_prefix (p l : list ascii) : option (list ascii) :=
  match p, l with
  | [], _ => Some l
  | a :: p', b :: l' => if Ascii.eqb a b then strip_prefix p' l' else None
  | _ :: _, [] => None
  end.

Fixpoint strip_one (seqs : list (list ascii)) (l : list ascii)
  : option (list ascii) :=
  match seqs with
  | [] => None
  | p :: seqs' =>
      match strip_prefix p l with
      | Some l' => Some l'
      | None => strip_one seqs' l
      end
  end.

Fixpoint lstrip_with (seqs : list (list ascii)) (fuel : nat) (l : list ascii)
  : list ascii :=
  match fuel with
  | O => l
  | S fuel' =>
      match strip_one seqs l with
      | Some l' => lstrip_with seqs fuel' l'
      | None => l
      end
  end.

Definition lstrip (l : list ascii) : list ascii :=
  lstrip_with whitespace_seqs (List.length l) l.

Definition rstrip (l : list ascii) : list ascii :=
  rev (lstrip_with (map (@rev ascii) whitespace_seqs) (List.length l) (rev l)).

Definition strip (s : string) : string :=
  string_of_list_ascii (rstrip (lstrip (list_ascii_of_string s))).

(** [os.path.basename] (posixpath): what follows the last slash. *)
Fixpoint basename_from (cur : string) (s : string) : string :=
  match s with
  | EmptyString => cur
  | String c s' =>
      if Ascii.eqb c "/"%char then basename_from s' s' else basename_from cur s'
  end.

Definition basename (s : string) : string := basename_from s s.

(** [bytes.decode("utf-8")]: the well-formed byte sequences of the Unicode
    standard (table 3-7), anything else raises UnicodeDecodeError. *)
Definition in_range (lo hi : nat) (b : Byte.byte) : bool :=
  let n := Byte.to_nat b in (Nat.leb lo n && Nat.leb n hi)%bool.

Fixpoint utf8_wf (fuel : nat) (l : list Byte.byte) : bool :=
  match fuel with
  | O => match l with [] => true | _ => false end
  | S fuel' =>
      match l with
      | [] => true
      | b0 :: l1 =>
          if in_range 0 127 b0 then utf8_wf fuel' l1
          else
            match l1 with
            | [] => false
            | b1 :: l2 =>
                if in_range 194 223 b0 then
                  in_range 128 191 b1 && utf8_wf fuel' l2
                else
                  match l2 with
                  | [] => false
                  | b2 :: l3 =>
                      if in_range 224 239 b0 then
                        (if in_range 224 224 b0 then in_range 160 191 b1
                         else if in_range 237 237 b0 then in_range 128 159 b1
                         else in_range 128 191 b1)
                        && in_range 128 191 b2 && utf8_wf fuel' l3
                      else
                        match l3 with
                        | [] => false
                        | b3 :: l4 =>
                            in_range 240 244 b0
                            && (if in_range 240 240 b0 then in_range 144 191 b1
                                else if in_range 244 244 b0
                                     then in_range 128 143 b1
                                     else in_range 128 191 b1)
                            && in_range 128 191 b2 && in_range 128 191 b3
                            && utf8_wf fuel' l4
                        end
                  end
            end
      end
  end%bool.

Definition decode_utf8 (b : list Byte.byte) : result string :=
  if utf8_wf (List.length b) b then Ok (string_of_list_byte b)
  else Err UnicodeDecodeError.

(* ================================================================== *)
(** * Values decoded from JSON *)

(** What [json.loads] builds: None, bool, int, float (kept as its literal),
    str, list, dict.  A dict is an association list with distinct keys. *)
Inductive json : Type :=
| JNull
| JBool (b : bool)
| JInt (z : Z)
| JFloat (literal : string)
| JStr (s : string)
| JList (l : list json)
| JDict (d : list (string * json)).

Fixpoint dict_lookup (key : string) (d : list (string * json)) : option json :=
  match d with
  | [] => None
  | (k, v) :: d' => if String.eqb k key then Some v else dict_lookup key d'
  end.

(** [d[key] = v]: an existing key keeps its place and takes the new value. *)
Fixpoint dict_set (key : string) (v : json) (d : list (string * json))
  : list (string * json) :=
  match d with
  | [] => [(key, v)]
  | (k, v0) :: d' =>
      if String.eqb k key then (k, v) :: d' else (k, v0) :: dict_set key v d'
  end.

(** [obj.get(key, default)]: only a dict has the method. *)
Definition py_get (obj : json) (key : string) (default : json) : result json :=
  match obj with
  | JDict d =>
      Ok (match dict_lookup key d with Some v => v | None => default end)
  | _ => Err AttributeError
  end.

(* ================================================================== *)
(** * Paths (pathlib, POSIX flavour) *)

Fixpoint split_slash_aux (cur : string) (s : string) : list string :=
  match s with
  | EmptyString => [cur]
  | String c s' =>
      if Ascii.eqb c "/"%char then cur :: split_slash_aux EmptyString s'
      else split_slash_aux (String.append cur (String c EmptyString)) s'
  end.

Definition split_slash (s : string) : list string :=
  split_slash_aux EmptyString s.

Fixpoint leading_slashes (s : string) : nat :=
  match s with
  | String c s' => if Ascii.eqb c "/"%char then S (leading_slashes s') else O
  | EmptyString => O
  end.

Record Path : Type := { root : string; names : list string }.

Definition is_name (s : string) : bool :=
  negb (String.eqb s EmptyString || String.eqb s ".")%bool.

(** [Path(s)]: one or three and more leading slashes make the root [/],
    exactly two [//]; empty and [.] components are dropped. *)
Definition make_path (s : string) : Path :=
  {| root := match leading_slashes s with
             | O => EmptyString
             | 2%nat => "//"
             | _ => "/"
             end;
     names := filter is_name (split_slash s) |}.

(** [str(p)], which is also [os.fspath(p)]. *)
Definition path_str (p : Path) : string :=
  match root p, names p with
  | EmptyString, [] => "."
  | r, ns => String.append r (String.concat "/" ns)
  end.

Definition parts (p : Path) : list string :=
  match root p with
  | EmptyString => names p
  | r => r :: names p
  end.

(** [l[-1]] *)
Definition last_item (l : list string) : result string :=
  match rev l with
  | [] => Err IndexError
  | x :: _ => Ok x
  end.

(* ================================================================== *)
(** * Documents *)

Record Section_ : Type := { link : json; text : string }.

Inductive DocumentSource : Type := FILE.

Record Document : Type := {
  id : string;
  sections : list Section_;
  source : DocumentSource;
  semantic_identifier : string;
  metadata : list (string * json)
}.

(* ================================================================== *)
(** * What the connector takes from outside *)

(** A line handed out by iterating a file object: text-mode files give
    [str], archive members [bytes]. *)
Inductive line : Type :=
| StrLine (s : string)
| BytesLine (b : list Byte.byte).

(** An open file, as the sequence of lines its iteration gives; reading may
    fail part-way. *)
Definition file_obj : Type := gen line unit.

(** A [tarfile.TarInfo] with the outcome of [extractfile] on it. *)
Record TarInfo : Type := {
  tar_path : string;
  isfile : bool;
  extractfile : result (option file_obj)
}.

Class ConnectorEnv : Type := {
  (** [danswer.connectors.file.utils] *)
  get_file_ext : string -> string;
  check_file_ext_is_valid : string -> bool;
  (** [re.search(TAR_MATCH_PATTERN, s)] finds a match *)
  tar_match : string -> bool;
  (** [json.loads] *)
  json_loads : string -> result json;
  (** [open(path, "r")] *)
  open_text : string -> result file_obj;
  (** [zipfile.ZipFile(path, "r")]: the namelist, each entry with the outcome
      of [zip_file.open] on it *)
  open_zip : string -> result (list (string * result file_obj));
  (** [tarfile.open(path, "r")] followed by [getmembers()] *)
  open_tar : string -> result (list TarInfo)
}.

(* ================================================================== *)
(** * connector.py *)

Definition _METADATA_FLAG : string := "#DANSWER_METADATA=".

Section Connector.
Context {env : ConnectorEnv}.
Local Open Scope py_scope.

Fixpoint zip_members (entries : list (string * result file_obj))
  : gen (string * file_obj) unit :=
  match entries with
  | [] => Return tt
  | (file_name, opened) :: entries' =>
      match opened with
      | Err e => Raise e
      | Ok file => Yield (basename file_name, file) (zip_members entries')
      end
  end.

Definition _get_files_from_zip (zip_location : Path)
  : gen (string * file_obj) unit :=
  match open_zip (path_str zip_location) with
  | Err e => Raise e
  | Ok namelist => zip_members namelist
  end.

Fixpoint tar_members (members : list TarInfo) : gen (string * file_obj) unit :=
  match members with
  | [] => Return tt
  | member :: members' =>
      if isfile member then
        match extractfile member with
        | Err e => Raise e
        | Ok None => tar_members members'
        | Ok (Some file) =>
            Yield (basename (tar_path member), file) (tar_members members')
        end
      else tar_members members'
  end.

Definition _get_files_from_tar (tar_location : Path)
  : gen (string * file_obj) unit :=
  match open_tar (path_str tar_location) with
  | Err e => Raise e
  | Ok members => tar_members members
  end.

Definition _open_files_at_location (file_path : Path)
  : gen (string * file_obj) unit :=
  let extension := get_file_ext (path_str file_path) in
  if String.eqb extension ".zip" then _get_files_from_zip file_path
  else if String.eqb extension ".txt" then
    match open_text (path_str file_path) with
    | Err e => Raise e
    | Ok file => Yield (basename (path_str file_path), file) (Return tt)
    end
  else
    match last_item (parts file_path) with
    | Err e => Raise e
    | Ok name =>
        if tar_match name then _get_files_from_tar file_path
        else Return tt
    end.

(** [isinstance(line, bytes)] then decode, then [str(line)] *)
Definition decode_line (l : line) : result string :=
  match l with
  | StrLine s => Ok s
  | BytesLine b => decode_utf8 b
  end.

(** The loop [for ind, line in enumerate(file)] of [_process_file], with
    its two variables. *)
Fixpoint read_lines (file : file_obj) (ind : nat) (metadata : json)
    (file_content_raw : string) : result (json * string) :=
  match file with
  | Return _ => Ok (metadata, file_content_raw)
  | Raise e => Err e
  | Yield l rest =>
      line <- decode_line l ;;
      if (Nat.eqb ind 0 && startswith line _METADATA_FLAG)%bool then
        metadata <-
          json_loads (strip (replace_first _METADATA_FLAG EmptyString line)) ;;
        read_lines rest (S ind) metadata file_content_raw
      else
        read_lines rest (S ind) metadata (String.append file_content_raw line)
  end.

Definition _process_file (file_name : string) (file : file_obj)
  : result (list Document) :=
  let extension := get_file_ext file_name in
  if negb (check_file_ext_is_valid file_name) then Ok []
  else
    '(metadata, file_content_raw) <- read_lines file 0 (JDict []) EmptyString ;;
    lnk <- py_get metadata "link" (JStr EmptyString) ;;
    Ok [ {| id := file_name;
            sections := [ {| link := lnk; text := file_content_raw |} ];
            source := FILE;
            semantic_identifier := file_name;
            metadata := [] |} ].

Local Open Scope gen_scope.

(** The inner loop of [load_from_state] over the members of one location;
    it hands the accumulator back to the outer loop. *)
Fixpoint files_loop (batch_size : Z) (files : gen (string * file_obj) unit)
    (documents : list Document) : gen (list Document) (list Document) :=
  match files with
  | Return _ => Return documents
  | Raise e => Raise e
  | Yield (file_name, file) files' =>
      match _process_file file_name file with
      | Err e => Raise e
      | Ok new_documents =>
          let documents := documents ++ new_documents in
          if Z.of_nat (List.length documents) >=? batch_size then
            Yield documents (files_loop batch_size files' [])
          else files_loop batch_size files' documents
      end
  end.

Fixpoint locations_loop (batch_size : Z) (file_locations : list Path)
    (documents : list Document) : gen (list Document) unit :=
  match file_locations with
  | [] =>
      match documents with
      | [] => Return tt
      | _ :: _ => Yield documents (Return tt)
      end
  | file_location :: rest =>
      documents <~
        files_loop batch_size (_open_files_at_location file_location) documents ;;
      locations_loop batch_size rest documents
  end.

(** [LocalFileConnector(file_locations, batch_size)]. *)
Record LocalFileConnector : Type := {
  file_locations : list Path;
  batch_size : Z
}.

Definition __init__ (locations : list string) (size : Z) : LocalFileConnector :=
  {| file_locations := map make_path locations; batch_size := size |}.

(** [load_credentials]: nothing is needed, nothing is returned. *)
Definition load_credentials (self : LocalFileConnector)
    (credentials : list (string * json)) : option (list (string * json)) :=
  None.

Definition load_from_state (self : LocalFileConnector)
  : gen (list Document) unit :=
  locations_loop (batch_size self) (file_locations self) [].

End Connector.

(* ================================================================== *)
(** * answer_question.py *)

Inductive SearchType : Type := KEYWORD | SEMANTIC.

Definition SearchType_eqb (a b : SearchType) : bool :=
  match a, b with
  | KEYWORD, KEYWORD | SEMANTIC, SEMANTIC => true
  | _, _ => false
  end.

(** [l[start:stop]] for a list, with Python's treatment of negative and
    out-of-range bounds. *)
Definition slice_bound (len i : Z) : Z :=
  if i <? 0 then Z.max 0 (i + len) else Z.min i len.

Definition py_slice {A : Type} (l : list A) (start stop : Z) : list A :=
  let len := Z.of_nat (List.length l) in
  let lo := slice_bound len start in
  let hi := slice_bound len stop in
  firstn (Z.to_nat (hi - lo)) (skipn (Z.to_nat lo) l).

(** The collaborators of [answer_question]: the types it only passes
    along, the configuration constant, and the calls it makes. *)
Class QAEnv : Type := {
  InferenceChunk : Type;
  SearchDoc : Type;
  Filters : Type;
  User : Type;
  UserId : Type;
  QueryFlow : Type;
  Quotes : Type;
  QAModel : Type;
  NUM_GENERATIVE_AI_INPUT_DOCS : Z;
  (** [user.id] *)
  user_id : User -> UserId;
  query_intent : string -> result (SearchType * QueryFlow);
  (** the index object is built from the collection name in the call *)
  retrieve_keyword_documents :
    string -> option UserId -> Filters -> string ->
    result (option (list InferenceChunk));
  retrieve_ranked_documents :
    string -> option UserId -> Filters -> string ->
    result (option (list InferenceChunk) * option (list InferenceChunk));
  (** [get_default_backend_qa_model(timeout=QA_TIMEOUT)] *)
  get_default_backend_qa_model : result QAModel;
  (** [qa_model.answer_question] *)
  model_answer_question :
    QAModel -> string -> list InferenceChunk ->
    result (option string * option Quotes);
  chunks_to_search_docs :
    option (list InferenceChunk) -> result (option (list SearchDoc));
  (** [str(e)] in the f-string of the handler *)
  exn_str : exn -> string
}.

Section DirectQA.
Context {qa : QAEnv}.
Local Open Scope py_scope.

Record QuestionRequest : Type := {
  query : string;
  collection : string;
  use_keyword : option bool;
  filters : Filters;
  offset : option Z
}.

Record QAResponse : Type := {
  answer : option string;
  quotes : option Quotes;
  top_ranked_docs : option (list SearchDoc);
  lower_ranked_docs : option (list SearchDoc);
  predicted_flow : QueryFlow;
  predicted_search : SearchType;
  error_msg : option string
}.

(** [not ranked_chunks]: None and the empty list are both falsy. *)
Definition falsy {A : Type} (l : option (list A)) : bool :=
  match l with
  | None => true
  | Some [] => true
  | Some (_ :: _) => false
  end.

(** Lines 33 to 45: the search kind and the retrieval call it selects. *)
Definition retrieve (question : QuestionRequest) (user : option User)
    (predicted_search : SearchType)
  : result (option (list InferenceChunk) * option (list InferenceChunk)) :=
  let use_keyword :=
    match use_keyword question with
    | None => SearchType_eqb predicted_search KEYWORD
    | Some b => b
    end in
  let user_id := match user with None => None | Some u => Some (user_id u) end in
  if use_keyword then
    ranked_chunks <-
      retrieve_keyword_documents (query question) user_id (filters question)
        (collection question) ;;
    Ok (ranked_chunks, Some [])
  else
    retrieve_ranked_documents (query question) user_id (filters question)
      (collection question).

Definition offset_too_large : exn :=
  ValueError "Chunks offset too large, should not retry this many times".

Definition answer_question (question : QuestionRequest) (user : option User)
  : result QAResponse :=
  let offset_count := match offset question with Some o => o | None => 0 end in
  '(predicted_search, predicted_flow) <- query_intent (query question) ;;
  '(ranked_chunks, unranked_chunks) <- retrieve question user predicted_search ;;
  if falsy ranked_chunks then
    Ok {| answer := None;
          quotes := None;
          top_ranked_docs := None;
          lower_ranked_docs := None;
          predicted_flow := predicted_flow;
          predicted_search := predicted_search;
          error_msg := None |}
  else
    let chunks := match ranked_chunks with Some l => l | None => [] end in
    qa_model <- get_default_backend_qa_model ;;
    let chunk_offset := offset_count * NUM_GENERATIVE_AI_INPUT_DOCS in
    if chunk_offset >=? Z.of_nat (List.length chunks) then Err offset_too_large
    else
      '(answer, quotes, error_msg) <-
        match model_answer_question qa_model (query question)
                (py_slice chunks chunk_offset
                   (chunk_offset + NUM_GENERATIVE_AI_INPUT_DOCS)) with
        | Ok (answer, quotes) => Ok (answer, quotes, None)
        | Err e =>
            (* except Exception as e *)
            if is_exception e then
              Ok (None, None,
                  Some (String.append "Error occurred in call to LLM - "
                          (exn_str e)))
            else Err e
        end ;;
      top <- chunks_to_search_docs ranked_chunks ;;
      lower <- chunks_to_search_docs unranked_chunks ;;
      Ok {| answer := answer;
            quotes := quotes;
            top_ranked_docs := top;
            lower_ranked_docs := lower;
            predicted_flow := predicted_flow;
            predicted_search := predicted_search;
            error_msg := error_msg |}.

End DirectQA.

(* ================================================================== *)
(** * A reference decoder for [json.loads]

    The grammar CPython's decoder accepts: the four blanks between tokens,
    strict strings (no raw control character), integers and floats,
    [null], [true], [false], [NaN], [Infinity], [-Infinity], arrays and
    objects, and nothing but blanks after the value. *)
Module RefJson.

Definition chr (n : nat) : ascii := ascii_of_nat n.
Definition is_chr (n : nat) (c : ascii) : bool := Nat.eqb (nat_of_ascii c) n.

Definition is_ws (c : ascii) : bool :=
  (is_chr 32 c || is_chr 9 c || is_chr 10 c || is_chr 13 c)%bool.

Fixpoint skip_ws (l : list ascii) : list ascii :=
  match l with
  | c :: l' => if is_ws c then skip_ws l' else l
  | [] => []
  end.

Definition digit_val (c : ascii) : option nat :=
  let n := nat_of_ascii c in
  if (Nat.leb 48 n && Nat.leb n 57)%bool then Some (n - 48)%nat else None.

Definition hex_val (c : ascii) : option nat :=
  let n := nat_of_ascii c in
  if (Nat.leb 48 n && Nat.leb n 57)%bool then Some (n - 48)%nat
  else if (Nat.leb 65 n && Nat.leb n 70)%bool then Some (n - 55)%nat
  else if (Nat.leb 97 n && Nat.leb n 102)%bool then Some (n - 87)%nat
  else None.

Definition hex4 (l : list ascii) : option (N * list ascii) :=
  match l with
  | a :: b :: c :: d :: l' =>
      match hex_val a, hex_val b, hex_val c, hex_val d with
      | Some x, Some y, Some z, Some w =>
          Some (N.of_nat (((x * 16 + y) * 16 + z) * 16 + w), l')
      | _, _, _, _ => None
      end
  | _ => None
  end.

Definition nchr (n : N) : ascii := ascii_of_N n.

(** The UTF-8 bytes of a code point. *)
Definition utf8_encode (cp : N) : list ascii :=
  (if cp <? 128 then [nchr cp]
   else if cp <? 2048 then [nchr (192 + cp / 64); nchr (128 + cp mod 64)]
   else if cp <? 65536 then
     [nchr (224 + cp / 4096); nchr (128 + (cp / 64) mod 64);
      nchr (128 + cp mod 64)]
   else
     [nchr (240 + cp / 262144); nchr (128 + (cp / 4096) mod 64);
      nchr (128 + (cp / 64) mod 64); nchr (128 + cp mod 64)])%N.

Definition simple_escape (c : ascii) : option ascii :=
  if is_chr 34 c then Some (chr 34)
  else if is_chr 92 c then Some (chr 92)
  else if is_chr 47 c then Some (chr 47)
  else if is_chr 98 c then Some (chr 8)
  else if is_chr 102 c then Some (chr 12)
  else if is_chr 110 c then Some (chr 10)
  else if is_chr 114 c then Some (chr 13)
  else if is_chr 116 c then Some (chr 9)
  else None.

(** A four-digit escape, joined with a following low surrogate when it is
    a high one. *)
Definition unicode_escape (l : list ascii) : option (N * list ascii) :=
  match hex4 l with
  | None => None
  | Some (hi, l') =>
      if (55296 <=? hi)%N && (hi <=? 56319)%N then
        match l' with
        | b :: u :: l'' =>
            if is_chr 92 b && is_chr 117 u then
              match hex4 l'' with
              | Some (lo, l3) =>
                  if (56320 <=? lo)%N && (lo <=? 57343)%N
                  then Some (65536 + (hi - 55296) * 1024 + (lo - 56320), l3)%N
                  else Some (hi, l')
              | None => Some (hi, l')
              end
            else Some (hi, l')
        | _ => Some (hi, l')
        end
      else Some (hi, l')
  end.

(** The body of a string, after its opening quote. *)
Fixpoint scan_string (fuel : nat) (l acc : list ascii)
  : option (string * list ascii) :=
  match fuel with
  | O => None
  | S fuel' =>
      match l with
      | [] => None
      | c :: l' =>
          if is_chr 34 c then Some (string_of_list_ascii (rev acc), l')
          else if is_chr 92 c then
            match l' with
            | [] => None
            | e :: l'' =>
                match simple_escape e with
                | Some x => scan_string fuel' l'' (x :: acc)
                | None =>
                    if is_chr 117 e then
                      match unicode_escape l'' with
                      | Some (cp, l3) =>
                          scan_string fuel' l3 (rev (utf8_encode cp) ++ acc)
                      | None => None
                      end
                    else None
                end
            end
          else if Nat.ltb (nat_of_ascii c) 32 then None
          else scan_string fuel' l' (c :: acc)
      end
  end.

Fixpoint take_digits (l : list ascii) : list nat * list ascii :=
  match l with
  | c :: l' =>
      match digit_val c with
      | Some d => let '(ds, r) := take_digits l' in (d :: ds, r)
      | None => ([], l)
      end
  | [] => ([], [])
  end.

Definition digits_value (ds : list nat) : Z :=
  fold_left (fun acc d => 10 * acc + Z.of_nat d) ds 0.

(** The integer part: a lone [0], or digits that do not start with [0]. *)
Definition int_part (l : list ascii) : option (list nat * list ascii) :=
  match l with
  | c :: l' =>
      match digit_val c with
      | Some O => Some ([O], l')
      | Some d => let '(ds, r) := take_digits l' in Some (d :: ds, r)
      | None => None
      end
  | [] => None
  end.

Definition frac_part (l : list ascii) : option (list ascii) :=
  match l with
  | c :: l' =>
      if is_chr 46 c then
        match take_digits l' with
        | (_ :: _, r) => Some r
        | ([], _) => None
        end
      else None
  | [] => None
  end.

Definition exp_part (l : list ascii) : option (list ascii) :=
  match l with
  | c :: l' =>
      if (is_chr 101 c || is_chr 69 c)%bool then
        let l'' := match l' with
                   | s :: r => if (is_chr 43 s || is_chr 45 s)%bool then r else l'
                   | [] => l'
                   end in
        match take_digits l'' with
        | (_ :: _, r) => Some r
        | ([], _) => None
        end
      else None
  | [] => None
  end.

Definition consumed (l r : list ascii) : string :=
  string_of_list_ascii (firstn (List.length l - List.length r) l).

Definition scan_number (l : list ascii) : option (json * list ascii) :=
  let '(neg, l0) :=
    match l with
    | c :: l' => if is_chr 45 c then (true, l') else (false, l)
    | [] => (false, l)
    end in
  match int_part l0 with
  | None => None
  | Some (ds, r) =>
      let r1 := match frac_part r with Some r' => r' | None => r end in
      let r2 := match exp_part r1 with Some r' => r' | None => r1 end in
      if Nat.eqb (List.length r2) (List.length r) then
        Some (JInt (if neg then - digits_value ds else digits_value ds), r)
      else Some (JFloat (consumed l r2), r2)
  end.

Definition literals : list (string * json) :=
  [ ("null", JNull); ("true", JBool true); ("false", JBool false);
    ("NaN", JFloat "NaN"); ("Infinity", JFloat "Infinity");
    ("-Infinity", JFloat "-Infinity") ]%string.

Fixpoint scan_literal (lits : list (string * json)) (l : list ascii)
  : option (json * list ascii) :=
  match lits with
  | [] => None
  | (name, v) :: lits' =>
      match strip_prefix (list_ascii_of_string name) l with
      | Some r => Some (v, r)
      | None => scan_literal lits' l
      end
  end.

(** Values, array elements and object members; every call consumes input,
    so fuel beyond twice the length is never used up. *)
Fixpoint scan_value (fuel : nat) (l : list ascii) {struct fuel}
  : option (json * list ascii) :=
  match fuel with
  | O => None
  | S fuel' =>
      match skip_ws l with
      | [] => None
      | c :: l' =>
          if is_chr 34 c then
            match scan_string (List.length l') l' [] with
            | Some (s, r) => Some (JStr s, r)
            | None => None
            end
          else if is_chr 91 c then
            match skip_ws l' with
            | c' :: r =>
                if is_chr 93 c' then Some (JList [], r)
                else scan_elements fuel' l' []
            | [] => None
            end
          else if is_chr 123 c then
            match skip_ws l' with
            | c' :: r =>
                if is_chr 125 c' then Some (JDict [], r)
                else scan_members fuel' l' []
            | [] => None
            end
          else
            match scan_literal literals (c :: l') with
            | Some found => Some found
            | None => scan_number (c :: l')
            end
      end
  end
with scan_elements (fuel : nat) (l : list ascii) (acc : list json) {struct fuel}
  : option (json * list ascii) :=
  match fuel with
  | O => None
  | S fuel' =>
      match scan_value fuel' l with
      | None => None
      | Some (v, r) =>
          match skip_ws r with
          | c :: r' =>
              if is_chr 44 c then scan_elements fuel' r' (v :: acc)
              else if is_chr 93 c then Some (JList (rev (v :: acc)), r')
              else None
          | [] => None
          end
      end
  end
with scan_members (fuel : nat) (l : list ascii) (acc : list (string * json))
    {struct fuel} : option (json * list ascii) :=
  match fuel with
  | O => None
  | S fuel' =>
      match skip_ws l with
      | q :: l1 =>
          if is_chr 34 q then
            match scan_string (List.length l1) l1 [] with
            | None => None
            | Some (key, r) =>
                match skip_ws r with
                | colon :: r1 =>
                    if is_chr 58 colon then
                      match scan_value fuel' r1 with
                      | None => None
                      | Some (v, r2) =>
                          match skip_ws r2 with
                          | c :: r3 =>
                              if is_chr 44 c
                              then scan_members fuel' r3 (dict_set key v acc)
                              else if is_chr 125 c
                                   then Some (JDict (dict_set key v acc), r3)
                                   else None
                          | [] => None
                          end
                      end
                    else None
                | [] => None
                end
            end
          else None
      | [] => None
      end
  end.

Definition JSONDecodeError : exn :=
  External "json.decoder.JSONDecodeError" "invalid document".

Definition loads (s : string) : result json :=
  let l := list_ascii_of_string s in
  match scan_value (2 * List.length l + 2) l with
  | Some (v, r) =>
      match skip_ws r with
      | [] => Ok v
      | _ :: _ => Err JSONDecodeError
      end
  | None => Err JSONDecodeError
  end.

End RefJson.

(* ================================================================== *)
(** * A reference environment

    A file system given by three tables, and the helpers of
    [danswer.connectors.file.utils] as the specification describes them. *)

Fixpoint assoc {A : Type} (key : string) (l : list (string * A)) : option A :=
  match l with
  | [] => None
  | (k, v) :: l' => if String.eqb k key then Some v else assoc key l'
  end.

Definition FileNotFoundError : exn :=
  External "FileNotFoundError" "No such file or directory".

Definition lookup_file {A : Type} (table : list (string * result A))
    (path : string) : result A :=
  match assoc path table with
  | Some r => r
  | None => Err FileNotFoundError
  end.

Fixpoint drop_dots (s : string) : string :=
  match s with
  | String c s' => if Ascii.eqb c "."%char then drop_dots s' else s
  | EmptyString => EmptyString
  end.

Fixpoint last_dot (s : string) (found : option string) : option string :=
  match s with
  | EmptyString => found
  | String c s' =>
      last_dot s' (if Ascii.eqb c "."%char then Some s else found)
  end.

(** Modelled from the spec: [get_file_ext] of
    [danswer.connectors.file.utils], which is not among the sources:
    "derive the extension from the member name", here as
    [os.path.splitext] does (the last dot of the base name and what
    follows, leading dots of the base name apart). *)
Definition ref_get_file_ext (name : string) : string :=
  match last_dot (drop_dots (basename name)) None with
  | Some ext => ext
  | None => EmptyString
  end.

(** Modelled from the spec: [check_file_ext_is_valid] of
    [danswer.connectors.file.utils], which is not among the sources, with
    the accepted set of the specification's examples, [.txt] alone. *)
Definition ref_check_file_ext_is_valid (name : string) : bool :=
  String.eqb (ref_get_file_ext name) ".txt".

Fixpoint endswith_any (suffixes : list string) (s : string) : bool :=
  match suffixes with
  | [] => false
  | suf :: rest =>
      let n := String.length s - String.length suf in
      (Nat.leb (String.length suf) (String.length s)
       && String.eqb (str_drop n s) suf
       || endswith_any rest s)%bool
  end%nat.

(** Modelled from the spec: the constant [TAR_MATCH_PATTERN], which is not
    among the sources: "a filename pattern matching common
    tar/compressed-tar suffixes". *)
Definition ref_tar_match (name : string) : bool :=
  endswith_any [".tar"; ".tar.gz"; ".tar.bz2"; ".tar.xz"; ".tgz"]%string name.

Record FileSystem : Type := {
  text_files : list (string * result file_obj);
  zip_files : list (string * result (list (string * result file_obj)));
  tar_files : list (string * result (list TarInfo))
}.

Definition ref_env (fs : FileSystem) : ConnectorEnv :=
  {| get_file_ext := ref_get_file_ext;
     check_file_ext_is_valid := ref_check_file_ext_is_valid;
     tar_match := ref_tar_match;
     json_loads := RefJson.loads;
     open_text := lookup_file (text_files fs);
     open_zip := lookup_file (zip_files fs);
     open_tar := lookup_file (tar_files fs) |}.

(** A file object that yields the given lines and reaches its end. *)
Definition text_file (lines : list string) : file_obj :=
  gen_of_list (map StrLine lines).

Definition bytes_file (lines : list string) : file_obj :=
  gen_of_list (map (fun s => BytesLine (list_byte_of_string s)) lines).

(** A sample environment for [answer_question]: chunks are strings,
    retrieval answers from two fixed lists, the model echoes its input. *)
Definition sample_qa (ranked unranked : option (list string)) (num : Z) : QAEnv :=
  {| InferenceChunk := string;
     SearchDoc := string;
     Filters := unit;
     User := string;
     UserId := string;
     QueryFlow := unit;
     Quotes := list string;
     QAModel := unit;
     NUM_GENERATIVE_AI_INPUT_DOCS := num;
     user_id := fun u => u;
     query_intent := fun _ => Ok (SEMANTIC, tt);
     retrieve_keyword_documents := fun _ _ _ _ => Ok ranked;
     retrieve_ranked_documents := fun _ _ _ _ => Ok (ranked, unranked);
     get_default_backend_qa_model := Ok tt;
     model_answer_question := fun _ q chunks => Ok (Some q, Some chunks);
     chunks_to_search_docs := fun chunks => Ok chunks;
     exn_str := fun e =>
       match e with
       | ValueError msg => msg
       | External _ msg => msg
       | _ => EmptyString
       end |}.

(* ================================================================== *)
(** * The specification's vocabulary *)

(** The value a generator returns, when it returns. *)
Fixpoint returned {Y R : Type} (g : gen Y R) : option R :=
  match g with
  | Return r => Some r
  | Raise _ => None
  | Yield _ rest => returned rest
  end.

(** The successive full batches of [n] documents of a list, and what is
    left over after them. *)
Definition full_batches {A : Type} (n : nat) (docs : list A) : list (list A) :=
  map (fun i => firstn n (skipn (i * n) docs)) (seq 0 (List.length docs / n)).

Definition remainder {A : Type} (n : nat) (docs : list A) : list A :=
  skipn (n * (List.length docs / n)) docs.

(** The document [_process_file] builds for a member, given the link and
    the text of its only section. *)
Definition built (file_name : string) (lnk : json) (txt : string) : Document :=
  {| id := file_name;
     sections := [ {| link := lnk; text := txt |} ];
     source := FILE;
     semantic_identifier := file_name;
     metadata := [] |}.

(** The lines of a file as text, when every one of them decodes. *)
Fixpoint decode_all (lines : list line) : result (list string) :=
  match lines with
  | [] => Ok []
  | l :: lines' =>
      rbind (decode_line l) (fun s =>
      rbind (decode_all lines') (fun ss => Ok (s :: ss)))
  end.

(** [s1 + s2 + ...] *)
Fixpoint join (ss : list string) : string :=
  match ss with
  | [] => EmptyString
  | s :: ss' => String.append s (join ss')
  end.

Section Production.
Context {env : ConnectorEnv}.

(** The members of all locations, in location order and, within a
    location, in the container's order, up to the first failure. *)
Fixpoint all_members (locations : list Path) : gen (string * file_obj) unit :=
  match locations with
  | [] => Return tt
  | location :: rest =>
      gbind (_open_files_at_location location) (fun _ => all_members rest)
  end.

(** The documents built from a sequence of members, in order, and the
    fatal error that ends the production, if one does. *)
Fixpoint build_all (members : gen (string * file_obj) unit)
  : list Document * option exn :=
  match members with
  | Return _ => ([], None)
  | Raise e => ([], Some e)
  | Yield (file_name, file) rest =>
      match _process_file file_name file with
      | Err e => ([], Some e)
      | Ok docs => let '(more, fin) := build_all rest in (docs ++ more, fin)
      end
  end.

Definition produced (self : LocalFileConnector) : list Document :=
  fst (build_all (all_members (file_locations self))).

Definition fatal_error (self : LocalFileConnector) : option exn :=
  snd (build_all (all_members (file_locations self))).

(** The last step of [load_from_state]: the flush of a non-empty
    accumulator. *)
Definition flush (documents : list Document) : gen (list Document) unit :=
  match documents with
  | [] => Return tt
  | _ :: _ => Yield documents (Return tt)
  end.

End Production.

(* ================================================================== *)
(** * Sample inputs *)

(** The line [#DANSWER_METADATA={"link": "http://x"}] with its newline. *)
Definition sidecar_line : string :=
  join [_METADATA_FLAG; "{"; dquote; "link"; dquote; ": "; dquote; "http://x";
        dquote; "}"; nl]%string.

Definition hello_world : string := join ["hello"; nl; "world"; nl]%string.

Definition annotated_lines : list string :=
  [sidecar_line; String.append "hello" nl; String.append "world" nl].

Definition BadZipFile : exn := External "zipfile.BadZipFile" "File is not a zip file".

(** A text file, an archive with two accepted members and a [.pdf], and a
    file that is not an archive under a [.zip] name. *)
Definition sample_fs : FileSystem :=
  {| text_files :=
       [ ("notes.txt"%string, Ok (text_file annotated_lines)) ];
     zip_files :=
       [ ("docs.zip"%string,
          Ok [ ("a.txt"%string, Ok (bytes_file annotated_lines));
               ("b.pdf"%string, Ok (bytes_file ["%PDF-1.4"%string]));
               ("notes/c.txt"%string, Ok (bytes_file ["plain"%string])) ]);
         ("bad.zip"%string, Err BadZipFile) ];
     tar_files := [] |}.

Definition sample_env : ConnectorEnv := ref_env sample_fs.

Definition sample_connector (locations : list string) (size : Z)
  : LocalFileConnector := __init__ locations size.

Definition sample_question (ranked unranked : option (list string)) (num : Z)
    (o : option Z) : @QuestionRequest (sample_qa ranked unranked num) :=
  @Build_QuestionRequest (sample_qa ranked unranked num)
    "what is new" "docs" None tt o.

(* ================================================================== *)
(** * Vocabulary for the readers and the thresholds *)

Fixpoint has_slash (s : string) : bool :=
  match s with
  | EmptyString => false
  | String c s' => (Ascii.eqb c "/"%char || has_slash s')%bool
  end.

(** An archive entry under a directory: [dir/name]. *)
Definition in_dir (dir name : string) : string :=
  String.append dir (String "/"%char name).

(** What a tar archive hands out when no extraction fails: the regular
    files that give a stream, under their base names, in order. *)
Fixpoint tar_selected (members : list TarInfo) : list (string * file_obj) :=
  match members with
  | [] => []
  | member :: members' =>
      match isfile member, extractfile member with
      | true, Ok (Some file) =>
          (basename (tar_path member), file) :: tar_selected members'
      | _, _ => tar_selected members'
      end
  end.

(** The members of a tar archive whose extraction does not raise. *)
Definition extractable (member : TarInfo) : bool :=
  match isfile member, extractfile member with
  | true, Err _ => false
  | _, _ => true
  end.

(** A generator that yields the items of a list and then raises. *)
Fixpoint gen_then_raise {Y : Type} (l : list Y) (e : exn) : gen Y unit :=
  match l with
  | [] => Raise e
  | y :: l' => Yield y (gen_then_raise l' e)
  end.

(** The shape of every document the connector builds: one section, the
    name shown is the id, no metadata, and no directory in the id. *)
Definition well_shaped (d : Document) : Prop :=
  List.length (sections d) = 1%nat
  /\ semantic_identifier d = id d
  /\ metadata d = []
  /\ has_slash (id d) = false.

Section Readers.
Context {env : ConnectorEnv}.

(** The locations [_open_files_at_location] passes over with a warning:
    neither [.zip] nor [.txt], and a last part that is no tar name. *)
Definition passed_over (file_path : Path) : bool :=
  let extension := get_file_ext (path_str file_path) in
  (negb (String.eqb extension ".zip")
   && negb (String.eqb extension ".txt")
   && match last_item (parts file_path) with
      | Ok name => negb (tar_match name)
      | Err _ => false
      end)%bool.

(** What the builder returns member by member, up to the first fatal
    error. *)
Fixpoint build_each (members : gen (string * file_obj) unit)
  : list (list Document) :=
  match members with
  | Return _ => []
  | Raise _ => []
  | Yield (file_name, file) rest =>
      match _process_file file_name file with
      | Err _ => []
      | Ok docs => docs :: build_each rest
      end
  end.

End Readers.

(** An archive with a directory, two regular files, an entry that gives no
    stream, and a text file of two plain lines. *)
Definition sample_tar : list TarInfo :=
  [ {| tar_path := "pkg"; isfile := false; extractfile := Ok None |};
    {| tar_path := "pkg/readme.txt"; isfile := true;
       extractfile := Ok (Some (bytes_file ["read me"%string])) |};
    {| tar_path := "pkg/ghost.txt"; isfile := true; extractfile := Ok None |};
    {| tar_path := "pkg/sub/notes.txt"; isfile := true;
       extractfile := Ok (Some (bytes_file annotated_lines)) |} ]%string.

Definition archive_fs : FileSystem :=
  {| text_files :=
       [ ("inbox/plain.txt"%string,
          Ok (text_file [String.append "first" nl; "second"%string])) ];
     zip_files :=
       [ ("docs.zip"%string,
          Ok [ ("a.txt"%string, Ok (bytes_file annotated_lines));
               ("b.pdf"%string, Ok (bytes_file ["%PDF-1.4"%string]));
               ("notes/c.txt"%string, Ok (bytes_file ["plain"%string])) ]);
         ("half.zip"%string,
          Ok [ ("one/a.txt"%string, Ok (bytes_file ["alpha"%string]));
               ("two/b.txt"%string, Err BadZipFile);
               ("three/c.txt"%string, Ok (bytes_file ["gamma"%string])) ]) ];
     tar_files := [ ("pkg.tar"%string, Ok sample_tar) ] |}.

Definition archive_env : ConnectorEnv := ref_env archive_fs.

(** The successive slices of [n] items of a list, the last one shorter
    when [n] does not divide the length. *)
Definition slices {A : Type} (n : nat) (l : list A) : list (list A) :=
  full_batches n l
  ++ match remainder n l with
     | [] => []
     | x :: rest => [x :: rest]
     end.

Section Offsets.
Context {qa : QAEnv}.

(** [question.offset if question.offset is not None else 0] *)
Definition offset_count (question : QuestionRequest) : Z :=
  match offset question with
  | Some o => o
  | None => 0
  end.

(** The chunks handed to the model for an offset count: at most
    NUM_GENERATIVE_AI_INPUT_DOCS of them, starting that many times the
    count into the ranked chunks. *)
Definition window (ranked : list InferenceChunk) (count : Z)
  : list InferenceChunk :=
  firstn (Z.to_nat NUM_GENERATIVE_AI_INPUT_DOCS)
    (skipn (Z.to_nat (count * NUM_GENERATIVE_AI_INPUT_DOCS)) ranked).

End Offsets.

(** A sample environment whose model always fails. *)
Definition failing_qa (ranked : option (list string)) (num : Z) : QAEnv :=
  {| InferenceChunk := string;
     SearchDoc := string;
     Filters := unit;
     User := string;
     UserId := string;
     QueryFlow := unit;
     Quotes := list string;
     QAModel := unit;
     NUM_GENERATIVE_AI_INPUT_DOCS := num;
     user_id := fun u => u;
     query_intent := fun _ => Ok (KEYWORD, tt);
     retrieve_keyword_documents := fun _ _ _ _ => Ok ranked;
     retrieve_ranked_documents := fun _ _ _ _ => Ok (ranked, None);
     get_default_backend_qa_model := Ok tt;
     model_answer_question := fun _ _ _ => Err (External "TimeoutError" "timed out");
     chunks_to_search_docs := fun chunks => Ok chunks;
     exn_str := fun e =>
       match e with
       | ValueError msg => msg
       | External _ msg => msg
       | _ => EmptyString
       end |}.

Definition failing_question (ranked : option (list string)) (num : Z)
    (o : option Z) : @QuestionRequest (failing_qa ranked num) :=
  @Build_QuestionRequest (failing_qa ranked num) "what is new" "docs" None tt o.

(** An archive none of whose members has an accepted extension. *)
Definition scans_fs : FileSystem :=
  {| text_files := [];
     zip_files :=
       [ ("scans.zip"%string,
          Ok [ ("b.pdf"%string, Ok (bytes_file ["%PDF-1.4"%string]));
               ("img/c.png"%string, Ok (bytes_file ["PNG"%string])) ]) ];
     tar_files := [] |}.

Definition scans_env : ConnectorEnv := ref_env scans_fs.

(* ================================================================== *)
(** * Strings and results *)

Lemma append_assoc (a b c : string) :
  String.append (String.append a b) c = String.append a (String.append b c).
Proof.
  induction a as [| ch a IH]; simpl.
  - reflexivity.
  - now rewrite IH.
Qed.

Lemma append_empty_r (a : string) : String.append a EmptyString = a.
Proof.
  induction a as [| ch a IH]; simpl; [reflexivity | now rewrite IH].
Qed.

Lemma rbind_ok {A B : Type} (r : result A) (k : A -> result B) (b : B) :
  rbind r k = Ok b -> exists a, r = Ok a /\ k a = Ok b.
Proof.
  destruct r as [a | e]; simpl; intros H.
  - now exists a.
  - discriminate.
Qed.

(* ================================================================== *)
(** * The document builder *)

Section BuilderFacts.
Context {env : ConnectorEnv}.

(** Lines that all decode, none of them a first-line sidecar, are appended
    to the content in order and leave the metadata alone. *)
Lemma read_lines_plain (lines : list line) :
  forall (ss : list string) (ind : nat) (md : json) (raw : string),
    decode_all lines = Ok ss ->
    (ind = 0%nat -> match ss with
                    | s :: _ => startswith s _METADATA_FLAG = false
                    | [] => True
                    end) ->
    read_lines (gen_of_list lines) ind md raw
    = Ok (md, String.append raw (join ss)).
Proof.
  induction lines as [| l lines IH]; intros ss ind md raw Hdec Hfirst.
  - simpl in Hdec. injection Hdec as <-. simpl. now rewrite append_empty_r.
  - simpl in Hdec.
    destruct (decode_line l) as [s |] eqn:Hl; simpl in Hdec; [| discriminate].
    destruct (decode_all lines) as [ss' |] eqn:Hrest; simpl in Hdec;
      [| discriminate].
    injection Hdec as <-.
    simpl. rewrite Hl. simpl.
    assert (Hcond : (Nat.eqb ind 0 && startswith s _METADATA_FLAG)%bool = false).
    { destruct ind as [| ind'].
      - simpl. now apply Hfirst.
      - reflexivity. }
    rewrite Hcond.
    rewrite (IH ss' (S ind) md (String.append raw s) eq_refl).
    + now rewrite append_assoc.
    + intros Hind. discriminate.
Qed.

(** A first line that carries the marker is handed to [json.loads] without
    the marker and without surrounding blanks, and is kept out of the
    content. *)
Lemma read_lines_sidecar (l : line) (lines : list line) (s : string)
    (ss : list string) (md : json) :
  decode_line l = Ok s ->
  startswith s _METADATA_FLAG = true ->
  json_loads (strip (replace_first _METADATA_FLAG EmptyString s)) = Ok md ->
  decode_all lines = Ok ss ->
  read_lines (gen_of_list (l :: lines)) 0 (JDict []) EmptyString
  = Ok (md, join ss).
Proof.
  intros Hl Hflag Hjson Hrest.
  simpl. rewrite Hl. simpl. rewrite Hflag. simpl. rewrite Hjson. simpl.
  rewrite (read_lines_plain lines (ss := ss) (ind := 1) md EmptyString Hrest).
  - reflexivity.
  - intros Hind. discriminate.
Qed.

(** When the loop comes to its end, the file has been read to its end and
    every line has been decoded. *)
Lemma read_lines_ok (file : file_obj) :
  forall (ind : nat) (md md' : json) (raw raw' : string),
    read_lines file ind md raw = Ok (md', raw') ->
    exists lines ss, file = gen_of_list lines /\ decode_all lines = Ok ss.
Proof.
  induction file as [r | e | l rest IH]; intros ind md md' raw raw' H.
  - destruct r. now exists [], [].
  - discriminate.
  - simpl in H. apply rbind_ok in H. destruct H as [s [Hl H]].
    assert (Hrest : exists ind2 md2 raw2,
               read_lines rest ind2 md2 raw2 = Ok (md', raw')).
    { destruct (Nat.eqb ind 0 && startswith s _METADATA_FLAG)%bool.
      - apply rbind_ok in H. destruct H as [md2 [_ H]]. eauto.
      - eauto. }
    destruct Hrest as [ind2 [md2 [raw2 Hrest]]].
    destruct (IH _ _ _ _ _ Hrest) as [lines [ss [-> Hdec]]].
    exists (l :: lines), (s :: ss). split; [reflexivity |].
    simpl. rewrite Hl, Hdec. reflexivity.
Qed.

(** The builder never returns more than one document, and returns none
    only for a rejected extension. *)
Lemma _process_file_returns (file_name : string) (file : file_obj)
    (docs : list Document) :
  _process_file file_name file = Ok docs ->
  (check_file_ext_is_valid file_name = false /\ docs = [])
  \/ (check_file_ext_is_valid file_name = true /\
      exists lnk txt,
        docs = [ {| id := file_name;
                    sections := [ {| link := lnk; text := txt |} ];
                    source := FILE;
                    semantic_identifier := file_name;
                    metadata := [] |} ]).
Proof.
  unfold _process_file.
  destruct (check_file_ext_is_valid file_name); simpl; intros H.
  - right. split; [reflexivity |].
    apply rbind_ok in H. destruct H as [[md raw] [_ H]].
    apply rbind_ok in H. destruct H as [lnk [_ H]].
    injection H as <-. now exists lnk, raw.
  - left. now injection H as <-.
Qed.

Lemma _process_file_length (file_name : string) (file : file_obj)
    (docs : list Document) :
  _process_file file_name file = Ok docs -> (List.length docs <= 1)%nat.
Proof.
  intros H. apply _process_file_returns in H.
  destruct H as [[_ ->] | [_ [lnk [txt ->]]]]; simpl; lia.
Qed.

(** After the first line the metadata is never touched again. *)
Lemma read_lines_keeps_metadata (file : file_obj) :
  forall (ind : nat) (md md' : json) (raw raw' : string),
    ind <> 0%nat ->
    read_lines file ind md raw = Ok (md', raw') -> md' = md.
Proof.
  induction file as [r | e | l rest IH]; intros ind md md' raw raw' Hind H.
  - simpl in H. now injection H.
  - discriminate.
  - simpl in H. apply rbind_ok in H. destruct H as [s [_ H]].
    destruct ind as [| ind']; [congruence |]. simpl in H.
    now apply IH in H.
Qed.

(** The loop comes to its end only on content that can be read: the file
    gives its lines to the end, every line decodes, and a first line that
    carries the marker decodes to the metadata the loop ends with. *)
Lemma read_lines_readable (file : file_obj) (md md' : json)
    (raw raw' : string) :
  read_lines file 0 md raw = Ok (md', raw') ->
  exists lines ss,
    file = gen_of_list lines
    /\ decode_all lines = Ok ss
    /\ forall s rest,
         ss = s :: rest -> startswith s _METADATA_FLAG = true ->
         json_loads (strip (replace_first _METADATA_FLAG EmptyString s))
         = Ok md'.
Proof.
  intros H.
  destruct file as [r | e | l rest].
  - destruct r. exists [], []. repeat split. intros s rest Hs. discriminate.
  - discriminate.
  - simpl in H. apply rbind_ok in H. destruct H as [s [Hl H]].
    destruct (startswith s _METADATA_FLAG) eqn:Hflag; simpl in H.
    + apply rbind_ok in H. destruct H as [md2 [Hjson H]].
      destruct (read_lines_ok _ _ _ _ H) as [lines [ss [-> Hdec]]].
      apply read_lines_keeps_metadata in H; [| discriminate]. subst md'.
      exists (l :: lines), (s :: ss). split; [reflexivity | split].
      * simpl. now rewrite Hl, Hdec.
      * intros s0 rest0 Hs _. now injection Hs as <- _.
    + destruct (read_lines_ok _ _ _ _ H) as [lines [ss [-> Hdec]]].
      exists (l :: lines), (s :: ss). split; [reflexivity | split].
      * simpl. now rewrite Hl, Hdec.
      * intros s0 rest0 Hs Hs0. injection Hs as <- _. congruence.
Qed.


End BuilderFacts.

Section BuilderClaims.
Context {env : ConnectorEnv}.

(** C2, as amended: for every member with an accepted extension whose first
    line starts with the marker and is followed on that line by a JSON
    object whose "link" is "http://x", and whose remaining lines make up
    the text "hello\nworld\n", the builder returns exactly one Document
    with exactly one Section, link "http://x" and text "hello\nworld\n":
    the metadata line is not part of the text. *)
Theorem sidecar_round_trip (file_name : string) (first : line)
    (rest : list line) (s : string) (ss : list string)
    (d : list (string * json)) :
  check_file_ext_is_valid file_name = true ->
  decode_line first = Ok s ->
  startswith s _METADATA_FLAG = true ->
  json_loads (strip (replace_first _METADATA_FLAG EmptyString s))
  = Ok (JDict d) ->
  dict_lookup "link" d = Some (JStr "http://x") ->
  decode_all rest = Ok ss ->
  join ss = hello_world ->
  _process_file file_name (gen_of_list (first :: rest))
  = Ok [ built file_name (JStr "http://x") hello_world ].
Proof.
  intros Hvalid Hfirst Hflag Hjson Hlink Hrest Hbody.
  unfold _process_file. rewrite Hvalid. simpl negb. cbv iota.
  rewrite (read_lines_sidecar first rest Hfirst Hflag Hjson Hrest).
  simpl. rewrite Hlink, Hbody. reflexivity.
Qed.

(** C5: for every accepted member whose first line does not start with
    the marker, the Document built has a single Section whose link is the
    empty string and whose text is the whole content, all the lines in
    their order, the first one included.  Such a Document is built
    whenever every line decodes, and whenever a Document is built the file
    has been read to its end and every line has decoded. *)
Theorem no_marker_keeps_all_content (file_name : string) :
  check_file_ext_is_valid file_name = true ->
  (forall lines ss,
      decode_all lines = Ok ss ->
      match ss with
      | s :: _ => startswith s _METADATA_FLAG = false
      | [] => True
      end ->
      _process_file file_name (gen_of_list lines)
      = Ok [ built file_name (JStr EmptyString) (join ss) ])
  /\ (forall file docs,
         _process_file file_name file = Ok docs ->
         exists lines ss,
           file = gen_of_list lines
           /\ decode_all lines = Ok ss
           /\ (match ss with
               | s :: _ => startswith s _METADATA_FLAG = false
               | [] => True
               end ->
               docs = [ built file_name (JStr EmptyString) (join ss) ])).
Proof.
  intros Hvalid.
  assert (Hbuild : forall lines ss,
             decode_all lines = Ok ss ->
             match ss with
             | s :: _ => startswith s _METADATA_FLAG = false
             | [] => True
             end ->
             _process_file file_name (gen_of_list lines)
             = Ok [ built file_name (JStr EmptyString) (join ss) ]).
  { intros lines ss Hdec Hfirst.
    unfold _process_file. rewrite Hvalid. simpl negb. cbv iota zeta.
    rewrite (read_lines_plain lines (ind := 0) (JDict []) EmptyString Hdec).
    - reflexivity.
    - intros _. exact Hfirst. }
  split; [exact Hbuild |].
  intros file docs Hdocs.
  assert (Hread : exists md raw,
             read_lines file 0 (JDict []) EmptyString = Ok (md, raw)).
  { unfold _process_file in Hdocs. rewrite Hvalid in Hdocs.
    simpl negb in Hdocs. cbv iota zeta in Hdocs.
    apply rbind_ok in Hdocs. destruct Hdocs as [[md raw] [Hread _]]. eauto. }
  destruct Hread as [md [raw Hread]].
  destruct (read_lines_ok _ _ _ _ Hread) as [lines [ss [-> Hdec]]].
  exists lines, ss. split; [reflexivity | split; [exact Hdec |]].
  intros Hfirst. rewrite (Hbuild lines ss Hdec Hfirst) in Hdocs.
  now injection Hdocs as <-.
Qed.


End BuilderClaims.

(* ================================================================== *)
(** * Generators *)

Section GenFacts.
Context {Y R S : Type}.

Lemma gbind_ext (g : gen Y R) (k k' : R -> gen Y S) :
  (forall r, k r = k' r) -> gbind g k = gbind g k'.
Proof.
  intros Hk. induction g as [r | e | y rest IH]; simpl.
  - apply Hk.
  - reflexivity.
  - now rewrite IH.
Qed.

Lemma yielded_gbind (g : gen Y R) (k : R -> gen Y S) :
  yielded (gbind g k)
  = yielded g ++ match returned g with
                 | Some r => yielded (k r)
                 | None => []
                 end.
Proof.
  induction g as [r | e | y rest IH]; simpl.
  - reflexivity.
  - reflexivity.
  - now rewrite IH.
Qed.

Lemma raised_gbind (g : gen Y R) (k : R -> gen Y S) :
  raised (gbind g k)
  = match returned g with
    | Some r => raised (k r)
    | None => raised g
    end.
Proof.
  induction g as [r | e | y rest IH]; simpl; auto.
Qed.

Lemma returned_gbind (g : gen Y R) (k : R -> gen Y S) :
  returned (gbind g k)
  = match returned g with
    | Some r => returned (k r)
    | None => None
    end.
Proof.
  induction g as [r | e | y rest IH]; simpl; auto.
Qed.

(** A generator either returns or raises. *)
Lemma returned_or_raised (g : gen Y R) :
  (exists r, returned g = Some r /\ raised g = None)
  \/ (exists e, returned g = None /\ raised g = Some e).
Proof.
  induction g as [r | e | y rest IH]; simpl.
  - left. now exists r.
  - right. now exists e.
  - exact IH.
Qed.

End GenFacts.

Lemma gbind_assoc {Y R S T : Type} (g : gen Y R) (k : R -> gen Y S)
    (h : S -> gen Y T) :
  gbind (gbind g k) h = gbind g (fun r => gbind (k r) h).
Proof.
  induction g as [r | e | y rest IH]; simpl.
  - reflexivity.
  - reflexivity.
  - now rewrite IH.
Qed.

(* ================================================================== *)
(** * Full batches and remainder *)

Section BatchArith.
Context {A : Type}.
Variable n : nat.
Hypothesis n_pos : (0 < n)%nat.

Lemma short_list_batches (l : list A) :
  (List.length l < n)%nat -> full_batches n l = [] /\ remainder n l = l.
Proof.
  intros Hlen. unfold full_batches, remainder.
  rewrite (Nat.div_small _ _ Hlen). rewrite Nat.mul_0_r. now simpl.
Qed.

Lemma full_batches_app (a l : list A) :
  List.length a = n -> full_batches n (a ++ l) = a :: full_batches n l.
Proof.
  intros Ha. unfold full_batches.
  rewrite length_app, Ha.
  replace ((n + List.length l) / n)%nat with (S (List.length l / n)).
  2:{ replace (n + List.length l)%nat with (1 * n + List.length l)%nat by lia.
      rewrite Nat.div_add_l by lia. lia. }
  rewrite <- cons_seq, <- seq_shift. simpl map. f_equal.
  - rewrite firstn_app, Ha, Nat.sub_diag. simpl.
    rewrite <- Ha, firstn_all. now rewrite app_nil_r.
  - rewrite map_map. apply map_ext. intros i.
    f_equal. rewrite skipn_app.
    rewrite skipn_all2 by (rewrite Ha; simpl; lia).
    simpl app. f_equal. rewrite Ha. simpl. lia.
Qed.

Lemma remainder_app (a l : list A) :
  List.length a = n -> remainder n (a ++ l) = remainder n l.
Proof.
  intros Ha. unfold remainder.
  rewrite length_app, Ha.
  replace ((n + List.length l) / n)%nat with (S (List.length l / n)).
  2:{ replace (n + List.length l)%nat with (1 * n + List.length l)%nat by lia.
      rewrite Nat.div_add_l by lia. lia. }
  rewrite skipn_app.
  rewrite skipn_all2 by (rewrite Ha; nia).
  simpl app. f_equal. rewrite Ha. nia.
Qed.

(** Induction over a list, one full batch at a time. *)
Lemma batch_induction (P : list A -> Prop) :
  (forall l, (List.length l < n)%nat -> P l) ->
  (forall a l, List.length a = n -> P l -> P (a ++ l)) ->
  forall l, P l.
Proof.
  intros Hshort Hstep l.
  remember (List.length l) as k eqn:Hk.
  revert l Hk. induction k as [k IH] using lt_wf_ind. intros l Hk.
  destruct (Nat.lt_ge_cases (List.length l) n) as [Hlt | Hge].
  - now apply Hshort.
  - rewrite <- (firstn_skipn n l). apply Hstep.
    + rewrite length_firstn. lia.
    + apply (IH (List.length (skipn n l))); [| reflexivity].
      rewrite length_skipn. lia.
Qed.

Lemma full_batches_lengths (l : list A) :
  Forall (fun b => List.length b = n) (full_batches n l).
Proof.
  induction l as [l Hlt | a l Ha IH] using batch_induction.
  - destruct (short_list_batches l Hlt) as [-> _]. constructor.
  - rewrite (full_batches_app a l Ha). now constructor.
Qed.

Lemma batches_cover (l : list A) :
  List.concat (full_batches n l) ++ remainder n l = l.
Proof.
  induction l as [l Hlt | a l Ha IH] using batch_induction.
  - now destruct (short_list_batches l Hlt) as [-> ->].
  - rewrite (full_batches_app a l Ha), (remainder_app a l Ha).
    simpl. rewrite <- app_assoc. now rewrite IH.
Qed.

Lemma remainder_short (l : list A) : (List.length (remainder n l) < n)%nat.
Proof.
  induction l as [l Hlt | a l Ha IH] using batch_induction.
  - now destruct (short_list_batches l Hlt) as [_ ->].
  - now rewrite (remainder_app a l Ha).
Qed.

End BatchArith.

(* ================================================================== *)
(** * The batch emitter *)

Section EmitterFacts.
Context {env : ConnectorEnv}.

Lemma files_loop_gbind (size : Z) (g g' : gen (string * file_obj) unit) :
  forall documents,
    files_loop size (gbind g (fun _ => g')) documents
    = gbind (files_loop size g documents) (files_loop size g').
Proof.
  induction g as [r | e | [file_name file] rest IH]; intros documents; simpl.
  - reflexivity.
  - reflexivity.
  - destruct (_process_file file_name file) as [docs | e]; [| reflexivity].
    destruct (Z.of_nat (List.length (documents ++ docs)) >=? size); simpl;
      now rewrite IH.
Qed.

(** The two nested loops are one loop over all the members, followed by
    the flush. *)
Lemma locations_loop_flat (size : Z) (locations : list Path) :
  forall documents,
    locations_loop size locations documents
    = gbind (files_loop size (all_members locations) documents) flush.
Proof.
  induction locations as [| location rest IH]; intros documents; simpl.
  - reflexivity.
  - rewrite files_loop_gbind, gbind_assoc.
    apply gbind_ext. intros r. apply IH.
Qed.

(** Whatever the threshold: what has been yielded, followed by what is
    still held, is the accumulator followed by the documents built, in
    order; and the loop raises exactly when the production does. *)
Lemma files_loop_order (size : Z) (members : gen (string * file_obj) unit) :
  forall documents,
    raised (files_loop size members documents) = snd (build_all members)
    /\ exists pending,
         List.concat (yielded (files_loop size members documents)) ++ pending
         = documents ++ fst (build_all members)
         /\ (forall r, returned (files_loop size members documents) = Some r ->
                       pending = r).
Proof.
  induction members as [r | e | [file_name file] rest IH]; intros documents;
    simpl.
  - split; [reflexivity |]. exists documents. rewrite app_nil_r.
    split; [reflexivity |]. intros r' H. now injection H.
  - split; [reflexivity |]. exists documents. rewrite app_nil_r.
    split; [reflexivity |]. intros r' H. discriminate.
  - destruct (_process_file file_name file) as [docs | e]; simpl.
    + destruct (build_all rest) as [more fin] eqn:Hrest. simpl.
      destruct (Z.of_nat (List.length (documents ++ docs)) >=? size); simpl.
      * destruct (IH []) as [Hraised [pending [Hcat Hret]]].
        simpl in Hraised, Hcat.
        split; [exact Hraised |]. exists pending. split; [| exact Hret].
        rewrite <- app_assoc, Hcat. now rewrite app_assoc.
      * destruct (IH (documents ++ docs)) as [Hraised [pending [Hcat Hret]]].
        simpl in Hraised, Hcat.
        split; [exact Hraised |]. exists pending. split; [| exact Hret].
        rewrite Hcat. now rewrite app_assoc.
    + split; [reflexivity |]. exists documents. rewrite app_nil_r.
      split; [reflexivity |]. intros r' H. discriminate.
Qed.

(** With a positive threshold and an accumulator below it, the loop yields
    the full batches of the accumulator followed by the documents built;
    it hands the remainder back when the production ends well and drops
    it when the production raises. *)
Lemma files_loop_batches (size : Z) (members : gen (string * file_obj) unit) :
  0 < size ->
  forall documents,
    (List.length documents < Z.to_nat size)%nat ->
    let all := documents ++ fst (build_all members) in
    yielded (files_loop size members documents)
    = full_batches (Z.to_nat size) all
    /\ returned (files_loop size members documents)
       = match snd (build_all members) with
         | None => Some (remainder (Z.to_nat size) all)
         | Some _ => None
         end.
Proof.
  intros Hsize.
  assert (Hn : (0 < Z.to_nat size)%nat) by lia.
  induction members as [r | e | [file_name file] rest IH];
    intros documents Hlen; simpl.
  - rewrite app_nil_r.
    destruct (short_list_batches _ Hlen) as [-> ->]. now split.
  - rewrite app_nil_r.
    destruct (short_list_batches _ Hlen) as [-> _]. now split.
  - destruct (_process_file file_name file) as [docs | e] eqn:Hbuild; simpl.
    + pose proof (_process_file_length _ _ Hbuild) as Hone.
      destruct (build_all rest) as [more fin] eqn:Hrest. simpl.
      destruct (Z.of_nat (List.length (documents ++ docs)) >=? size) eqn:Hfull.
      * rewrite Z.geb_leb in Hfull. apply Z.leb_le in Hfull.
        assert (Hexact : List.length (documents ++ docs) = Z.to_nat size).
        { rewrite length_app in *. lia. }
        simpl.
        destruct (IH [] Hn) as [Hy Hr].
        simpl in Hy, Hr.
        rewrite app_assoc.
        rewrite (full_batches_app Hn _ more Hexact).
        rewrite (remainder_app Hn _ more Hexact).
        rewrite Hy. now split.
      * rewrite Z.geb_leb in Hfull. apply Z.leb_gt in Hfull.
        assert (Hbelow : (List.length (documents ++ docs) < Z.to_nat size)%nat)
          by lia.
        destruct (IH (documents ++ docs) Hbelow) as [Hy Hr].
        simpl in Hy, Hr.
        rewrite app_assoc. now split.
    + rewrite app_nil_r.
      destruct (short_list_batches _ Hlen) as [-> _]. now split.
Qed.

(** [load_from_state] raises exactly when the production does. *)
Lemma load_from_state_raised (self : LocalFileConnector) :
  raised (load_from_state self) = fatal_error self.
Proof.
  unfold load_from_state, fatal_error.
  rewrite locations_loop_flat, raised_gbind.
  destruct (files_loop_order (batch_size self)
              (all_members (file_locations self)) []) as [Hraised _].
  destruct (returned_or_raised
              (files_loop (batch_size self)
                 (all_members (file_locations self)) []))
    as [[r [-> Hnone]] | [e [-> Hsome]]].
  - rewrite <- Hraised, Hnone. now destruct r.
  - exact Hraised.
Qed.

(** Whatever the threshold, the batches of [load_from_state], one after
    the other, are a prefix of the documents produced, and all of them
    when no error ends the load. *)
Lemma load_from_state_order (self : LocalFileConnector) :
  exists pending,
    List.concat (yielded (load_from_state self)) ++ pending = produced self
    /\ (fatal_error self = None -> pending = []).
Proof.
  pose proof (load_from_state_raised self) as Hraised.
  unfold load_from_state, produced in *.
  rewrite locations_loop_flat in *. rewrite yielded_gbind.
  rewrite raised_gbind in Hraised.
  destruct (files_loop_order (batch_size self)
              (all_members (file_locations self)) [])
    as [_ [pending [Hcat Hret]]].
  simpl in Hcat.
  destruct (returned (files_loop (batch_size self)
                        (all_members (file_locations self)) []))
    as [r |] eqn:Hr.
  - exists []. rewrite app_nil_r. split; [| reflexivity].
    rewrite concat_app, <- Hcat, (Hret r eq_refl).
    f_equal. destruct r; simpl; [reflexivity | now rewrite app_nil_r].
  - exists pending. rewrite app_nil_r. split; [exact Hcat |].
    intros Hnone. rewrite Hnone in Hraised.
    destruct (returned_or_raised
                (files_loop (batch_size self)
                   (all_members (file_locations self)) []))
      as [[r [Hr' _]] | [e [_ He]]]; congruence.
Qed.

(** With a positive threshold, the batches of [load_from_state] are the
    full batches of the documents produced, followed by the remainder when
    the load ends well and the remainder is not empty. *)
Lemma load_from_state_batches (self : LocalFileConnector) :
  0 < batch_size self ->
  yielded (load_from_state self)
  = full_batches (Z.to_nat (batch_size self)) (produced self)
    ++ match fatal_error self with
       | Some _ => []
       | None => match remainder (Z.to_nat (batch_size self)) (produced self) with
                 | [] => []
                 | d :: ds => [d :: ds]
                 end
       end.
Proof.
  intros Hsize.
  unfold load_from_state, produced, fatal_error.
  rewrite locations_loop_flat, yielded_gbind.
  destruct (@files_loop_batches (batch_size self)
              (all_members (file_locations self)) Hsize [])
    as [Hy Hr]; [simpl; lia |].
  simpl in Hy, Hr. rewrite Hy, Hr.
  destruct (snd (build_all (all_members (file_locations self)))); [reflexivity |].
  now destruct (remainder _ _).
Qed.

End EmitterFacts.

(** The full batches of a list open the full batches of any list that
    extends it. *)
Lemma full_batches_prefix {A : Type} (n : nat) (l more : list A) :
  (0 < n)%nat ->
  full_batches n (l ++ more)
  = full_batches n l ++ full_batches n (remainder n l ++ more).
Proof.
  intros Hn.
  induction l as [l Hlt | a l Ha IH] using (batch_induction Hn).
  - now destruct (short_list_batches l Hlt) as [-> ->].
  - rewrite <- app_assoc.
    rewrite (full_batches_app Hn a (l ++ more) Ha).
    rewrite (full_batches_app Hn a l Ha), (remainder_app Hn a l Ha).
    simpl. now rewrite IH.
Qed.

Section EmitterClaims.
Context {env : ConnectorEnv}.

(** C1: with a positive batch-size threshold, every batch that
    [load_from_state] yields has at most threshold documents, and every
    batch that is not the last one yielded has exactly threshold
    documents. *)
Theorem batches_bounded (self : LocalFileConnector) :
  0 < batch_size self ->
  Forall (fun batch => Z.of_nat (List.length batch) <= batch_size self)
    (yielded (load_from_state self))
  /\ forall i batch,
       nth_error (yielded (load_from_state self)) i = Some batch ->
       (S i < List.length (yielded (load_from_state self)))%nat ->
       Z.of_nat (List.length batch) = batch_size self.
Proof.
  intros Hsize.
  assert (Hn : (0 < Z.to_nat (batch_size self))%nat) by lia.
  rewrite (load_from_state_batches self Hsize).
  pose proof (full_batches_lengths Hn (produced self)) as Hfull.
  pose proof (remainder_short Hn (produced self)) as Hrem.
  set (full := full_batches (Z.to_nat (batch_size self)) (produced self)) in *.
  set (rem := remainder (Z.to_nat (batch_size self)) (produced self)) in *.
  set (tail := match fatal_error self with
               | Some _ => []
               | None => match rem with [] => [] | d :: ds => [d :: ds] end
               end).
  assert (Htail : tail = [] \/ tail = [rem]).
  { unfold tail. destruct (fatal_error self); [now left |].
    destruct rem; [now left | now right]. }
  split.
  - apply Forall_app. split.
    + eapply Forall_impl; [| exact Hfull]. simpl. intros b Hb. lia.
    + destruct Htail as [-> | ->]; constructor; [lia | constructor].
  - intros i batch Hnth Hnotlast.
    rewrite length_app in Hnotlast.
    assert (Hi : (i < List.length full)%nat).
    { destruct Htail as [Ht | Ht]; rewrite Ht in Hnotlast; simpl in Hnotlast; lia. }
    rewrite nth_error_app1 in Hnth by exact Hi.
    apply nth_error_In in Hnth.
    rewrite Forall_forall in Hfull. specialize (Hfull batch Hnth). lia.
Qed.

(** C3: when the production hits a fatal error (a corrupt archive, an
    unreadable member, a malformed sidecar), [load_from_state] raises that
    error, and the documents built but not yet yielded, the in-flight
    batch, are never yielded.  With a positive threshold the batches
    yielded before the error are the full batches of the documents built
    before it, the very batches any load yields that builds these
    documents first, and the in-flight batch is the remainder after the
    last full batch. *)
Theorem fatal_error_drops_in_flight_batch (self : LocalFileConnector)
    (e : exn) :
  fatal_error self = Some e ->
  let n := Z.to_nat (batch_size self) in
  raised (load_from_state self) = Some e
  /\ (exists in_flight,
         List.concat (yielded (load_from_state self)) ++ in_flight
         = produced self)
  /\ (0 < batch_size self ->
      yielded (load_from_state self) = full_batches n (produced self)
      /\ List.concat (yielded (load_from_state self))
           ++ remainder n (produced self)
         = produced self
      /\ forall (env' : ConnectorEnv) (self' : LocalFileConnector) more,
           batch_size self' = batch_size self ->
           @produced env' self' = @produced env self ++ more ->
           exists later,
             yielded (@load_from_state env' self')
             = yielded (@load_from_state env self) ++ later).
Proof.
  intros Hfatal n.
  split; [| split].
  - now rewrite load_from_state_raised.
  - destruct (load_from_state_order self) as [pending [Hcat _]].
    now exists pending.
  - intros Hsize.
    assert (Hn : (0 < n)%nat) by (unfold n; lia).
    assert (Hy : yielded (load_from_state self)
                 = full_batches n (produced self)).
    { rewrite (load_from_state_batches self Hsize), Hfatal.
      now rewrite app_nil_r. }
    split; [exact Hy | split].
    + rewrite Hy. apply (batches_cover Hn).
    + intros env' self' more Hsame Hmore.
      assert (Hsize' : 0 < batch_size self') by now rewrite Hsame.
      eexists.
      rewrite (@load_from_state_batches env' self' Hsize'), Hmore, Hsame, Hy.
      fold n. rewrite (full_batches_prefix _ _ Hn), <- app_assoc.
      reflexivity.
Qed.

(** C7, as amended: with a positive threshold, when no document at all is
    built, [load_from_state] yields nothing: no batch, hence no empty
    batch. *)
Theorem no_documents_no_batches (self : LocalFileConnector) :
  0 < batch_size self ->
  produced self = [] ->
  yielded (load_from_state self) = [].
Proof.
  intros Hsize Hnone.
  rewrite (load_from_state_batches self Hsize), Hnone.
  assert (Hlen : (@List.length Document [] < Z.to_nat (batch_size self))%nat)
    by (simpl; lia).
  destruct (short_list_batches _ Hlen) as [-> ->].
  now destruct (fatal_error self).
Qed.

(** C6: the batches yielded, one after the other, hold the documents in
    the order of their production (locations in the order of the list,
    members in the order of their container): they are a prefix of the
    documents produced, and all of them when the load ends without an
    error; and a load that ends without an error after producing three
    documents yields, with batch size 2, a batch of two followed by a
    batch of one. *)
Theorem batches_in_production_order (self : LocalFileConnector) :
  (exists pending,
      List.concat (yielded (load_from_state self)) ++ pending = produced self
      /\ (fatal_error self = None -> pending = []))
  /\ (batch_size self = 2 ->
      fatal_error self = None ->
      List.length (produced self) = 3%nat ->
      map (@List.length Document) (yielded (load_from_state self))
      = [2; 1]%nat).
Proof.
  split.
  - apply load_from_state_order.
  - intros Htwo Hnone Hthree.
    assert (Hsize : 0 < batch_size self) by lia.
    rewrite (load_from_state_batches self Hsize), Hnone, Htwo.
    destruct (produced self) as [| d1 [| d2 [| d3 [| d4 ds]]]];
      try discriminate.
    reflexivity.
Qed.

(** C4: for a [.zip] location whose entries are [a.txt], [b.pdf] and
    [notes/c.txt], with [a.txt] and [c.txt] accepted and readable and
    [b.pdf] not accepted, the load ends without an error and yields
    exactly two Documents, with ids [a.txt] and [c.txt], in this order. *)
Theorem zip_members_by_base_name (location : Path) (size : Z)
    (fa fb fc : file_obj) (da dc : list Document) :
  get_file_ext (path_str location) = ".zip"%string ->
  open_zip (path_str location)
  = Ok [ ("a.txt"%string, Ok fa); ("b.pdf"%string, Ok fb);
         ("notes/c.txt"%string, Ok fc) ] ->
  check_file_ext_is_valid "a.txt" = true ->
  check_file_ext_is_valid "b.pdf" = false ->
  check_file_ext_is_valid "c.txt" = true ->
  _process_file "a.txt" fa = Ok da ->
  _process_file "c.txt" fc = Ok dc ->
  let self := {| file_locations := [location]; batch_size := size |} in
  raised (load_from_state self) = None
  /\ map id (List.concat (yielded (load_from_state self)))
     = ["a.txt"; "c.txt"]%string.
Proof.
  intros Hext Hzip Ha Hb Hc Hda Hdc self.
  assert (Hb' : _process_file "b.pdf" fb = Ok []).
  { unfold _process_file. now rewrite Hb. }
  apply _process_file_returns in Hda as Hda'.
  destruct Hda' as [[Hno _] | [_ [la [ta ->]]]]; [congruence |].
  apply _process_file_returns in Hdc as Hdc'.
  destruct Hdc' as [[Hno _] | [_ [lc [tc ->]]]]; [congruence |].
  assert (Hall : build_all (all_members (file_locations self))
                 = ([built "a.txt" la ta; built "c.txt" lc tc], None)).
  { simpl. unfold _open_files_at_location, _get_files_from_zip.
    rewrite Hext, Hzip. simpl.
    change (basename "a.txt") with "a.txt"%string.
    change (basename "b.pdf") with "b.pdf"%string.
    change (basename "notes/c.txt") with "c.txt"%string.
    rewrite Hda, Hb', Hdc. reflexivity. }
  assert (Hfatal : fatal_error self = None).
  { unfold fatal_error. now rewrite Hall. }
  split.
  - now rewrite load_from_state_raised.
  - destruct (load_from_state_order self) as [pending [Hcat Hpending]].
    rewrite (Hpending Hfatal), app_nil_r in Hcat. rewrite Hcat.
    unfold produced. rewrite Hall. reflexivity.
Qed.

End EmitterClaims.

(* ================================================================== *)
(** * The question-answering entry point *)

Section DirectQAClaims.
Context {qa : QAEnv}.

(** C8: for a request with an offset and a retrieval that gives a
    non-empty list of ranked chunks, [answer_question] raises instead of
    returning a response whenever the offset times
    NUM_GENERATIVE_AI_INPUT_DOCS is at least the number of ranked chunks;
    once the model has been obtained the error is the "offset too large"
    ValueError. *)
Theorem offset_out_of_range_raises (question : QuestionRequest)
    (user : option User) (o : Z) (search : SearchType) (flow : QueryFlow)
    (ranked : list InferenceChunk) (unranked : option (list InferenceChunk)) :
  offset question = Some o ->
  query_intent (query question) = Ok (search, flow) ->
  retrieve question user search = Ok (Some ranked, unranked) ->
  ranked <> [] ->
  o * NUM_GENERATIVE_AI_INPUT_DOCS >= Z.of_nat (List.length ranked) ->
  exists e,
    answer_question question user = Err e
    /\ (forall model, get_default_backend_qa_model = Ok model ->
                      e = offset_too_large).
Proof.
  intros Hoffset Hintent Hretrieve Hnonempty Hlarge.
  unfold answer_question.
  rewrite Hoffset, Hintent. simpl. rewrite Hretrieve. simpl.
  destruct ranked as [| chunk ranked']; [congruence |].
  cbv beta iota delta [falsy].
  destruct get_default_backend_qa_model as [model | e]; simpl rbind.
  - assert (Htest : (o * NUM_GENERATIVE_AI_INPUT_DOCS
                     >=? Z.of_nat (List.length (chunk :: ranked'))) = true).
    { rewrite Z.geb_leb. apply Z.leb_le. lia. }
    simpl in Htest. rewrite Htest. exists offset_too_large. split; [reflexivity | trivial].
  - exists e. split; [reflexivity |]. intros model Hmodel. discriminate.
Qed.

(** C9: when retrieval returns no ranked chunks, None or the empty list,
    [answer_question] returns a response whose answer, quotes and two
    document lists are None, whatever the offset of the request: the
    offset is not looked at on this path. *)
Theorem no_ranked_chunks_empty_response (question : QuestionRequest)
    (user : option User) (search : SearchType) (flow : QueryFlow)
    (ranked unranked : option (list InferenceChunk)) :
  query_intent (query question) = Ok (search, flow) ->
  retrieve question user search = Ok (ranked, unranked) ->
  ranked = None \/ ranked = Some [] ->
  answer_question question user
  = Ok {| answer := None;
          quotes := None;
          top_ranked_docs := None;
          lower_ranked_docs := None;
          predicted_flow := flow;
          predicted_search := search;
          error_msg := None |}.
Proof.
  intros Hintent Hretrieve Hempty.
  unfold answer_question.
  rewrite Hintent. simpl. rewrite Hretrieve. simpl.
  now destruct Hempty as [-> | ->].
Qed.

End DirectQAClaims.

(* ================================================================== *)
(** * The claims on the sample inputs *)

Lemma sidecar_round_trip_witness :
  @_process_file sample_env "a.txt" (bytes_file annotated_lines)
  = Ok [ built "a.txt" (JStr "http://x") hello_world ].
Proof.
  apply (@sidecar_round_trip sample_env "a.txt"
           (BytesLine (list_byte_of_string sidecar_line))
           (map (fun s => BytesLine (list_byte_of_string s))
              [String.append "hello" nl; String.append "world" nl])
           sidecar_line
           [String.append "hello" nl; String.append "world" nl]
           [("link"%string, JStr "http://x")]);
    vm_compute; reflexivity.
Defined.

(** C2, as stated, fails on a member whose extension is not accepted:
    the content is as the claim wants it, and no Document is built. *)
Lemma sidecar_rejected_extension :
  decode_all (map (fun s => BytesLine (list_byte_of_string s)) annotated_lines)
  = Ok annotated_lines
  /\ startswith sidecar_line _METADATA_FLAG = true
  /\ @json_loads sample_env
       (strip (replace_first _METADATA_FLAG EmptyString sidecar_line))
     = Ok (JDict [("link"%string, JStr "http://x")])
  /\ @check_file_ext_is_valid sample_env "b.pdf" = false
  /\ @_process_file sample_env "b.pdf" (bytes_file annotated_lines) = Ok [].
Proof.
  repeat split; vm_compute; reflexivity.
Qed.

Lemma no_marker_keeps_all_content_witness :
  @_process_file sample_env "c.txt" (bytes_file ["plain"; "text"]%string)
  = Ok [ built "c.txt" (JStr EmptyString) "plaintext" ].
Proof.
  apply (proj1 (@no_marker_keeps_all_content sample_env "c.txt" eq_refl)
           (map (fun s => BytesLine (list_byte_of_string s))
              ["plain"; "text"]%string)
           ["plain"; "text"]%string);
    vm_compute; reflexivity.
Defined.



Lemma batches_bounded_witness :
  Forall (fun batch => Z.of_nat (List.length batch) <= 2)
    (yielded (@load_from_state sample_env
                (sample_connector ["notes.txt"; "docs.zip"]%string 2))).
Proof.
  apply (proj1 (@batches_bounded sample_env
                  (sample_connector ["notes.txt"; "docs.zip"]%string 2)
                  eq_refl)).
Defined.

Lemma fatal_error_drops_in_flight_batch_witness :
  produced (env := sample_env)
    (sample_connector ["notes.txt"; "bad.zip"; "docs.zip"]%string 2)
  = [ built "notes.txt" (JStr "http://x") hello_world ]
  /\ raised (@load_from_state sample_env
               (sample_connector ["notes.txt"; "bad.zip"; "docs.zip"]%string 2))
     = Some BadZipFile
  /\ yielded (@load_from_state sample_env
                (sample_connector ["notes.txt"; "bad.zip"; "docs.zip"]%string 2))
     = [].
Proof.
  split; [vm_compute; reflexivity |].
  pose proof (@fatal_error_drops_in_flight_batch sample_env
                (sample_connector ["notes.txt"; "bad.zip"; "docs.zip"]%string 2)
                BadZipFile eq_refl) as [Hraised [_ Hbatches]].
  split; [exact Hraised |].
  destruct (Hbatches eq_refl) as [Hyielded _]. exact Hyielded.
Defined.

Lemma no_documents_no_batches_witness :
  raised (@load_from_state scans_env
            (sample_connector ["scans.zip"; "report.pdf"]%string 2))
  = None
  /\ yielded (@load_from_state scans_env
                (sample_connector ["scans.zip"; "report.pdf"]%string 2))
     = [].
Proof.
  split; [vm_compute; reflexivity |].
  apply (@no_documents_no_batches scans_env); [reflexivity |].
  vm_compute; reflexivity.
Defined.

(** C7, as stated, fails when the threshold is not positive: with
    threshold 0 every member closes a batch, so an archive whose two
    members are both rejected builds no document and yet gives two empty
    batches. *)
Lemma no_documents_empty_batches :
  @produced scans_env (sample_connector ["scans.zip"]%string 0) = []
  /\ @load_from_state scans_env (sample_connector ["scans.zip"]%string 0)
     = Yield [] (Yield [] (Return tt)).
Proof.
  split; vm_compute; reflexivity.
Qed.

Lemma batches_in_production_order_witness :
  map (@List.length Document)
    (yielded (@load_from_state sample_env
                (sample_connector ["notes.txt"; "docs.zip"]%string 2)))
  = [2; 1]%nat.
Proof.
  apply (proj2 (@batches_in_production_order sample_env
                  (sample_connector ["notes.txt"; "docs.zip"]%string 2)));
    vm_compute; reflexivity.
Defined.

Lemma zip_members_by_base_name_witness :
  map id
    (List.concat
       (yielded (@load_from_state sample_env
                   {| file_locations := [make_path "docs.zip"];
                      batch_size := 10 |})))
  = ["a.txt"; "c.txt"]%string.
Proof.
  apply (@zip_members_by_base_name sample_env (make_path "docs.zip") 10
           (bytes_file annotated_lines) (bytes_file ["%PDF-1.4"%string])
           (bytes_file ["plain"%string])
           [ built "a.txt" (JStr "http://x") hello_world ]
           [ built "c.txt" (JStr EmptyString) "plain" ]);
    vm_compute; reflexivity.
Defined.

Lemma offset_out_of_range_raises_witness :
  @answer_question (sample_qa (Some ["c1"; "c2"; "c3"]%string) None 5)
    (sample_question (Some ["c1"; "c2"; "c3"]%string) None 5 (Some 1)) None
  = Err offset_too_large.
Proof.
  destruct (@offset_out_of_range_raises
              (sample_qa (Some ["c1"; "c2"; "c3"]%string) None 5)
              (sample_question (Some ["c1"; "c2"; "c3"]%string) None 5 (Some 1))
              None 1 SEMANTIC tt ["c1"; "c2"; "c3"]%string None
              eq_refl eq_refl eq_refl)
    as [e [Herr Hkind]].
  - discriminate.
  - vm_compute. discriminate.
  - rewrite Herr. f_equal. apply (Hkind tt). reflexivity.
Defined.

Lemma no_ranked_chunks_empty_response_witness :
  @answer_question (sample_qa (Some []) (Some ["c9"%string]) 5)
    (sample_question (Some []) (Some ["c9"%string]) 5 (Some 1000000)) None
  = Ok (@Build_QAResponse (sample_qa (Some []) (Some ["c9"%string]) 5)
          None None None None tt SEMANTIC None).
Proof.
  apply (@no_ranked_chunks_empty_response
           (sample_qa (Some []) (Some ["c9"%string]) 5)
           (sample_question (Some []) (Some ["c9"%string]) 5 (Some 1000000))
           None SEMANTIC tt (Some []) (Some ["c9"%string])).
  - reflexivity.
  - reflexivity.
  - right. reflexivity.
Defined.

(* ================================================================== *)
(** * Base names *)

Lemma basename_from_no_slash (s : string) :
  forall cur,
    (has_slash s = false -> has_slash cur = false) ->
    has_slash (basename_from cur s) = false.
Proof.
  induction s as [| c s IH]; intros cur Hcur; simpl.
  - now apply Hcur.
  - destruct (Ascii.eqb c "/"%char) eqn:Hc.
    + apply IH. trivial.
    + apply IH. intros Hs. apply Hcur. simpl. now rewrite Hc.
Qed.

Lemma basename_no_slash (s : string) : has_slash (basename s) = false.
Proof. apply basename_from_no_slash. trivial. Qed.

Lemma basename_from_plain (s : string) :
  forall cur, has_slash s = false -> basename_from cur s = cur.
Proof.
  induction s as [| c s IH]; intros cur Hs; simpl in *.
  - reflexivity.
  - destruct (Ascii.eqb c "/"%char); [discriminate |]. now apply IH.
Qed.

Lemma basename_in_dir (dir name : string) :
  has_slash name = false -> basename (in_dir dir name) = name.
Proof.
  intros Hname. unfold basename, in_dir.
  generalize (String.append dir (String "/"%char name)) at 1.
  induction dir as [| c dir IH]; intros cur; simpl.
  - now apply basename_from_plain.
  - destruct (Ascii.eqb c "/"%char); apply IH.
Qed.

(* ================================================================== *)
(** * The container readers *)

Section ReaderFacts.
Context {env : ConnectorEnv}.

Lemma zip_members_opened (opened : list (string * file_obj)) :
  zip_members (map (fun nf => (fst nf, Ok (snd nf))) opened)
  = gen_of_list (map (fun nf => (basename (fst nf), snd nf)) opened).
Proof.
  induction opened as [| [name file] opened IH]; simpl.
  - reflexivity.
  - now rewrite IH.
Qed.

Lemma zip_members_failure (opened : list (string * file_obj)) (name : string)
    (e : exn) (later : list (string * result file_obj)) :
  zip_members (map (fun nf => (fst nf, Ok (snd nf))) opened
               ++ (name, Err e) :: later)
  = gen_then_raise (map (fun nf => (basename (fst nf), snd nf)) opened) e.
Proof.
  induction opened as [| [name' file] opened IH]; simpl.
  - reflexivity.
  - now rewrite IH.
Qed.

Lemma tar_members_selected (members : list TarInfo) :
  forallb extractable members = true ->
  tar_members members = gen_of_list (tar_selected members).
Proof.
  induction members as [| member members IH]; simpl; intros Hall.
  - reflexivity.
  - apply andb_prop in Hall. destruct Hall as [Hm Hrest].
    unfold extractable in Hm.
    destruct (isfile member); [| now apply IH].
    destruct (extractfile member) as [[file |] | e].
    + simpl. now rewrite IH.
    + now apply IH.
    + discriminate.
Qed.

Lemma tar_members_failure (before : list TarInfo) (member : TarInfo)
    (after : list TarInfo) (e : exn) :
  forallb extractable before = true ->
  isfile member = true ->
  extractfile member = Err e ->
  tar_members (before ++ member :: after)
  = gen_then_raise (tar_selected before) e.
Proof.
  intros Hall Hfile Herr.
  induction before as [| m before IH]; simpl.
  - now rewrite Hfile, Herr.
  - simpl in Hall. apply andb_prop in Hall. destruct Hall as [Hm Hrest].
    unfold extractable in Hm.
    destruct (isfile m); [| now apply IH].
    destruct (extractfile m) as [[file |] | e'].
    + simpl. now rewrite IH.
    + now apply IH.
    + discriminate.
Qed.

Lemma zip_members_names (entries : list (string * result file_obj)) :
  Forall (fun m => has_slash (fst m) = false) (yielded (zip_members entries)).
Proof.
  induction entries as [| [name [file | e]] entries IH]; simpl.
  - constructor.
  - constructor; [apply basename_no_slash | exact IH].
  - constructor.
Qed.

Lemma tar_members_names (members : list TarInfo) :
  Forall (fun m => has_slash (fst m) = false) (yielded (tar_members members)).
Proof.
  induction members as [| member members IH]; simpl.
  - constructor.
  - destruct (isfile member); [| exact IH].
    destruct (extractfile member) as [[file |] | e]; simpl.
    + constructor; [apply basename_no_slash | exact IH].
    + exact IH.
    + constructor.
Qed.

Lemma _open_files_at_location_names (file_path : Path) :
  Forall (fun m => has_slash (fst m) = false)
    (yielded (_open_files_at_location file_path)).
Proof.
  unfold _open_files_at_location, _get_files_from_zip, _get_files_from_tar.
  destruct (String.eqb (get_file_ext (path_str file_path)) ".zip").
  - destruct (open_zip (path_str file_path)); simpl.
    + apply zip_members_names.
    + constructor.
  - destruct (String.eqb (get_file_ext (path_str file_path)) ".txt").
    + destruct (open_text (path_str file_path)); simpl.
      * constructor; [apply basename_no_slash | constructor].
      * constructor.
    + destruct (last_item (parts file_path)) as [name | e]; simpl.
      * destruct (tar_match name); simpl; [| constructor].
        destruct (open_tar (path_str file_path)); simpl.
        -- apply tar_members_names.
        -- constructor.
      * constructor.
Qed.

Lemma all_members_names (locations : list Path) :
  Forall (fun m => has_slash (fst m) = false) (yielded (all_members locations)).
Proof.
  induction locations as [| location rest IH]; simpl.
  - constructor.
  - rewrite yielded_gbind. apply Forall_app. split.
    + apply _open_files_at_location_names.
    + destruct (returned (_open_files_at_location location));
        [exact IH | constructor].
Qed.

End ReaderFacts.

Section ReaderProperties.
Context {env : ConnectorEnv}.

(** X1: [_get_files_from_zip] hands out the entries of the namelist in
    order, each under its base name, as long as they open; the first entry
    that fails to open ends the traversal with its error and the entries
    after it are never opened; an archive that cannot be opened raises
    before anything is handed out. *)
Theorem zip_traversal (zip_location : Path) :
  (forall opened,
      open_zip (path_str zip_location)
      = Ok (map (fun nf => (fst nf, Ok (snd nf))) opened) ->
      _get_files_from_zip zip_location
      = gen_of_list (map (fun nf => (basename (fst nf), snd nf)) opened))
  /\ (forall opened name e later,
         open_zip (path_str zip_location)
         = Ok (map (fun nf => (fst nf, Ok (snd nf))) opened
               ++ (name, Err e) :: later) ->
         _get_files_from_zip zip_location
         = gen_then_raise
             (map (fun nf => (basename (fst nf), snd nf)) opened) e)
  /\ (forall e,
         open_zip (path_str zip_location) = Err e ->
         _get_files_from_zip zip_location = Raise e).
Proof.
  unfold _get_files_from_zip. split; [| split].
  - intros opened ->. apply zip_members_opened.
  - intros opened name e later ->. apply zip_members_failure.
  - now intros e ->.
Qed.

(** X2: an entry [dir/name] of a zip archive, whatever the depth of [dir],
    is handed out as [name]; a directory entry [dir/] is handed out under
    the empty name, since the zip reader does not filter directories. *)
Theorem zip_entries_lose_their_directory (zip_location : Path)
    (entries : list (string * string * file_obj)) :
  Forall (fun e => has_slash (snd (fst e)) = false) entries ->
  open_zip (path_str zip_location)
  = Ok (map (fun e => (in_dir (fst (fst e)) (snd (fst e)), Ok (snd e)))
          entries) ->
  _get_files_from_zip zip_location
  = gen_of_list (map (fun e => (snd (fst e), snd e)) entries).
Proof.
  intros Hnames Hzip. unfold _get_files_from_zip. rewrite Hzip. clear Hzip.
  induction Hnames as [| [[dir name] file] entries Hname _ IH]; simpl.
  - reflexivity.
  - simpl in Hname. rewrite (basename_in_dir dir name Hname). now rewrite IH.
Qed.

(** X3: [_get_files_from_tar] hands out, in order and under their base
    names, exactly the members that are regular files and for which
    [extractfile] gives a stream: directories and links are passed over, a
    member without a stream is passed over silently; an extraction that
    raises ends the traversal with its error, after the members selected
    before it. *)
Theorem tar_traversal (tar_location : Path) :
  (forall members,
      open_tar (path_str tar_location) = Ok members ->
      forallb extractable members = true ->
      _get_files_from_tar tar_location = gen_of_list (tar_selected members))
  /\ (forall before member after e,
         open_tar (path_str tar_location)
         = Ok (before ++ member :: after) ->
         forallb extractable before = true ->
         isfile member = true ->
         extractfile member = Err e ->
         _get_files_from_tar tar_location
         = gen_then_raise (tar_selected before) e)
  /\ (forall e,
         open_tar (path_str tar_location) = Err e ->
         _get_files_from_tar tar_location = Raise e).
Proof.
  unfold _get_files_from_tar. split; [| split].
  - intros members -> Hall. now apply tar_members_selected.
  - intros before member after e -> Hall Hfile Herr.
    now apply tar_members_failure.
  - now intros e ->.
Qed.

End ReaderProperties.

Lemma zip_traversal_witness :
  @_get_files_from_zip archive_env (make_path "half.zip")
  = Yield ("a.txt"%string, bytes_file ["alpha"%string])
      (Raise BadZipFile).
Proof.
  apply (proj1 (proj2 (@zip_traversal archive_env (make_path "half.zip")))
           [ ("one/a.txt"%string, bytes_file ["alpha"%string]) ]
           "two/b.txt"%string BadZipFile
           [ ("three/c.txt"%string, Ok (bytes_file ["gamma"%string])) ]).
  reflexivity.
Defined.

Lemma zip_entries_lose_their_directory_witness :
  @_get_files_from_zip
    (ref_env {| text_files := [];
                zip_files :=
                  [ ("d.zip"%string,
                     Ok [ ("x/y/a.txt"%string, Ok (bytes_file []));
                          ("x/"%string, Ok (bytes_file [])) ]) ];
                tar_files := [] |})
    (make_path "d.zip")
  = gen_of_list [ ("a.txt"%string, bytes_file []);
                  (EmptyString, bytes_file []) ].
Proof.
  apply (@zip_entries_lose_their_directory _ (make_path "d.zip")
           [ ("x/y"%string, "a.txt"%string, bytes_file []);
             ("x"%string, EmptyString, bytes_file []) ]).
  - repeat constructor.
  - reflexivity.
Defined.

Lemma tar_traversal_witness :
  @_get_files_from_tar archive_env (make_path "pkg.tar")
  = gen_of_list
      [ ("readme.txt"%string, bytes_file ["read me"%string]);
        ("notes.txt"%string, bytes_file annotated_lines) ].
Proof.
  apply (proj1 (@tar_traversal archive_env (make_path "pkg.tar")) sample_tar);
    reflexivity.
Defined.

(* ================================================================== *)
(** * More on the document builder *)

Lemma replace_first_unfold (old new s : string) :
  replace_first old new s
  = if String.prefix old s
    then String.append new (str_drop (String.length old) s)
    else match s with
         | EmptyString => EmptyString
         | String c s' => String c (replace_first old new s')
         end.
Proof. destruct s; reflexivity. Qed.

(** Removing a prefix that is there: what is left is the rest of the
    string, later occurrences included. *)
Lemma replace_first_prefix (pre s : string) :
  startswith s pre = true ->
  replace_first pre EmptyString s = str_drop (String.length pre) s.
Proof.
  unfold startswith. intros Hpre.
  rewrite replace_first_unfold, Hpre. reflexivity.
Qed.

Section BuilderProperties.
Context {env : ConnectorEnv}.

(** Lines read before a line that does not decode do not matter: the
    error of that line is the outcome. *)
Lemma read_lines_decode_error (before : list line) :
  forall (ss : list string) (l : line) (rest : file_obj) (e : exn)
         (ind : nat) (md : json) (raw : string),
    decode_all before = Ok ss ->
    (ind = 0%nat -> match ss with
                    | s :: _ => startswith s _METADATA_FLAG = false
                    | [] => True
                    end) ->
    decode_line l = Err e ->
    read_lines (gbind (gen_of_list before) (fun _ => Yield l rest)) ind md raw
    = Err e.
Proof.
  induction before as [| b before IH];
    intros ss l rest e ind md raw Hdec Hfirst Herr.
  - simpl. now rewrite Herr.
  - simpl in Hdec.
    destruct (decode_line b) as [s |] eqn:Hb; simpl in Hdec; [| discriminate].
    destruct (decode_all before) as [ss' |] eqn:Hrest; simpl in Hdec;
      [| discriminate].
    injection Hdec as <-.
    simpl. rewrite Hb. simpl.
    assert (Hcond : (Nat.eqb ind 0 && startswith s _METADATA_FLAG)%bool = false).
    { destruct ind as [| ind']; [simpl; now apply Hfirst | reflexivity]. }
    rewrite Hcond.
    apply (IH ss' l rest e (S ind) md _ eq_refl); [| exact Herr].
    intros Hind. discriminate.
Qed.

(** X4: for an accepted member whose first line starts with the marker,
    what is decoded as JSON is the rest of that line, the leading marker
    alone removed and the blanks at both ends stripped; when it decodes to
    an object, the Document has the object's "link" as link, whatever its
    JSON type, or the empty string when the object has no "link", and its
    text is made of the lines after the first, in order. *)
Theorem sidecar_link_and_text (file_name : string) (first : line)
    (rest : list line) (s : string) (ss : list string)
    (d : list (string * json)) :
  check_file_ext_is_valid file_name = true ->
  decode_line first = Ok s ->
  startswith s _METADATA_FLAG = true ->
  json_loads (strip (str_drop (String.length _METADATA_FLAG) s))
  = Ok (JDict d) ->
  decode_all rest = Ok ss ->
  _process_file file_name (gen_of_list (first :: rest))
  = Ok [ built file_name
           (match dict_lookup "link" d with
            | Some v => v
            | None => JStr EmptyString
            end)
           (join ss) ].
Proof.
  intros Hvalid Hfirst Hflag Hjson Hrest.
  rewrite <- (replace_first_prefix _ _ Hflag) in Hjson.
  unfold _process_file. rewrite Hvalid. simpl negb. cbv iota zeta.
  rewrite (read_lines_sidecar first rest Hfirst Hflag Hjson Hrest).
  reflexivity.
Qed.

(** X5: the two ways a sidecar makes the builder raise.  When the rest of
    the marker line is not JSON, the decoder's error leaves the builder at
    once, and the lines after the first are never read; when it is JSON
    but not an object (null, a number, a string, an array), the member is
    read to its end and the lookup of "link" raises AttributeError. *)
Theorem sidecar_failures (file_name : string) (first : line) (s : string) :
  check_file_ext_is_valid file_name = true ->
  decode_line first = Ok s ->
  startswith s _METADATA_FLAG = true ->
  (forall e (rest : file_obj),
      json_loads (strip (replace_first _METADATA_FLAG EmptyString s)) = Err e ->
      _process_file file_name (Yield first rest) = Err e)
  /\ (forall v rest ss,
         json_loads (strip (replace_first _METADATA_FLAG EmptyString s)) = Ok v ->
         (forall d, v <> JDict d) ->
         decode_all rest = Ok ss ->
         _process_file file_name (gen_of_list (first :: rest))
         = Err AttributeError).
Proof.
  intros Hvalid Hfirst Hflag. split.
  - intros e rest Hjson.
    unfold _process_file. rewrite Hvalid. simpl negb. cbv iota zeta.
    simpl. rewrite Hfirst. simpl. rewrite Hflag. simpl. now rewrite Hjson.
  - intros v rest ss Hjson Hnot Hrest.
    unfold _process_file. rewrite Hvalid. simpl negb. cbv iota zeta.
    rewrite (read_lines_sidecar first rest Hfirst Hflag Hjson Hrest).
    simpl. destruct v; try reflexivity. now destruct (Hnot d).
Qed.

(** X6: for an accepted member without a sidecar, a line that does not
    decode as UTF-8 makes the builder raise the decoding error, wherever
    the line stands and whatever follows it: no Document is built from
    the lines that did decode. *)
Theorem undecodable_line_aborts_member (file_name : string)
    (before : list line) (ss : list string) (l : line) (rest : file_obj)
    (e : exn) :
  check_file_ext_is_valid file_name = true ->
  decode_all before = Ok ss ->
  match ss with
  | s :: _ => startswith s _METADATA_FLAG = false
  | [] => True
  end ->
  decode_line l = Err e ->
  e = UnicodeDecodeError
  /\ _process_file file_name
       (gbind (gen_of_list before) (fun _ => Yield l rest))
     = Err UnicodeDecodeError.
Proof.
  intros Hvalid Hdec Hfirst Herr.
  assert (He : e = UnicodeDecodeError).
  { destruct l as [str | b]; simpl in Herr; [discriminate |].
    unfold decode_utf8 in Herr.
    destruct (utf8_wf (List.length b) b); [discriminate |].
    now injection Herr. }
  split; [exact He |]. subst e.
  unfold _process_file. rewrite Hvalid. simpl negb. cbv iota zeta.
  rewrite (read_lines_decode_error before l rest (ind := 0) (JDict [])
             EmptyString Hdec (fun _ => Hfirst) Herr).
  reflexivity.
Qed.

End BuilderProperties.

(* ================================================================== *)
(** * More on the batch emitter *)

Lemma gbind_raised_any {Y R S : Type} (g : gen Y R) (k k' : R -> gen Y S) :
  returned g = None -> gbind g k = gbind g k'.
Proof.
  induction g as [r | e | y rest IH]; simpl; intros Hret.
  - discriminate.
  - reflexivity.
  - now rewrite IH.
Qed.

Section EmitterMoreFacts.
Context {env : ConnectorEnv}.

Lemma all_members_app (first second : list Path) :
  all_members (first ++ second)
  = gbind (all_members first) (fun _ => all_members second).
Proof.
  induction first as [| location first IH]; simpl.
  - reflexivity.
  - rewrite gbind_assoc. apply gbind_ext. intros _. exact IH.
Qed.

Lemma build_all_gbind (g g' : gen (string * file_obj) unit) :
  build_all (gbind g (fun _ => g'))
  = match snd (build_all g) with
    | Some e => (fst (build_all g), Some e)
    | None => (fst (build_all g) ++ fst (build_all g'), snd (build_all g'))
    end.
Proof.
  induction g as [r | e | [file_name file] rest IH]; simpl.
  - now destruct (build_all g').
  - reflexivity.
  - destruct (_process_file file_name file) as [docs | e]; [| reflexivity].
    rewrite IH. destruct (build_all rest) as [more [e |]]; simpl.
    + reflexivity.
    + now rewrite app_assoc.
Qed.

Lemma build_all_shape (members : gen (string * file_obj) unit) :
  Forall (fun m => has_slash (fst m) = false) (yielded members) ->
  Forall well_shaped (fst (build_all members)).
Proof.
  induction members as [r | e | [file_name file] rest IH]; simpl; intros Hn.
  - constructor.
  - constructor.
  - inversion Hn as [| m ms Hname Hrest]; subst. simpl in Hname.
    destruct (_process_file file_name file) as [docs | e] eqn:Hbuild;
      [| constructor].
    specialize (IH Hrest). destruct (build_all rest) as [more fin]. simpl in *.
    apply Forall_app. split; [| exact IH].
    apply _process_file_returns in Hbuild.
    destruct Hbuild as [[_ ->] | [_ [lnk [txt ->]]]]; constructor.
    + now repeat split.
    + constructor.
Qed.

Lemma passed_over_nothing (file_path : Path) :
  passed_over file_path = true ->
  _open_files_at_location file_path = Return tt.
Proof.
  unfold passed_over, _open_files_at_location. intros H.
  apply andb_prop in H. destruct H as [H Htar].
  apply andb_prop in H. destruct H as [Hzip Htxt].
  apply negb_true_iff in Hzip, Htxt. rewrite Hzip, Htxt.
  destruct (last_item (parts file_path)) as [name | e]; [| discriminate].
  apply negb_true_iff in Htar. now rewrite Htar.
Qed.

Lemma locations_loop_filter (size : Z) (locations : list Path) :
  forall documents,
    locations_loop size locations documents
    = locations_loop size
        (filter (fun p => negb (passed_over p)) locations) documents.
Proof.
  induction locations as [| location rest IH]; intros documents; simpl.
  - reflexivity.
  - destruct (passed_over location) eqn:Hskip; simpl.
    + rewrite (passed_over_nothing _ Hskip). simpl. apply IH.
    + apply gbind_ext. intros r. apply IH.
Qed.

(** With a threshold that is not positive every member closes a batch. *)
Lemma files_loop_each (size : Z) (members : gen (string * file_obj) unit) :
  size <= 0 ->
  yielded (files_loop size members []) = build_each members
  /\ forall r, returned (files_loop size members []) = Some r -> r = [].
Proof.
  intros Hsize.
  induction members as [r | e | [file_name file] rest [IHy IHr]]; simpl.
  - split; [reflexivity |]. intros r' H. now injection H.
  - split; [reflexivity |]. intros r' H. discriminate.
  - destruct (_process_file file_name file) as [docs | e]; simpl.
    + assert (Hfull : (Z.of_nat (List.length docs) >=? size) = true).
      { rewrite Z.geb_leb. apply Z.leb_le. lia. }
      rewrite Hfull. simpl. rewrite IHy. split; [reflexivity | exact IHr].
    + split; [reflexivity |]. intros r' H. discriminate.
Qed.

Lemma fatal_error_not_returned (size : Z) (locations : list Path) (e : exn) :
  snd (build_all (all_members locations)) = Some e ->
  returned (files_loop size (all_members locations) []) = None.
Proof.
  intros Hfatal.
  destruct (files_loop_order size (all_members locations) []) as [Hraised _].
  rewrite Hfatal in Hraised.
  destruct (returned_or_raised (files_loop size (all_members locations) []))
    as [[r [_ Hnone]] | [e' [Hret _]]]; [congruence | exact Hret].
Qed.

End EmitterMoreFacts.

Section EmitterProperties.
Context {env : ConnectorEnv}.

(** X7: whatever the locations, the archives and the threshold, every
    Document in every batch that [load_from_state] yields has exactly one
    Section, a semantic identifier equal to its id, an empty metadata
    mapping, and an id without any directory part. *)
Theorem yielded_documents_well_shaped (self : LocalFileConnector) :
  Forall well_shaped (List.concat (yielded (load_from_state self))).
Proof.
  destruct (load_from_state_order self) as [pending [Hcat _]].
  pose proof (build_all_shape _ (all_members_names (file_locations self)))
    as Hshape.
  fold (produced self) in Hshape. rewrite <- Hcat in Hshape.
  now apply Forall_app in Hshape.
Qed.

(** X8: locations that are neither [.zip] nor [.txt] and whose last part
    is no tar name are passed over: a load over a list of locations is
    the load over the list without them, batch for batch. *)
Theorem passed_over_locations_do_not_count (locations : list Path) (size : Z) :
  load_from_state {| file_locations := locations; batch_size := size |}
  = load_from_state
      {| file_locations := filter (fun p => negb (passed_over p)) locations;
         batch_size := size |}.
Proof.
  unfold load_from_state. simpl. apply locations_loop_filter.
Qed.

(** X9: a location without any part, as the empty string or a lone dot
    gives, is not passed over: unless its extension is [.zip] or [.txt],
    taking the last of its parts raises IndexError, and a load that starts
    with such a location raises it before anything is yielded. *)
Theorem location_without_parts_raises (file_path : Path)
    (rest : list Path) (size : Z) :
  parts file_path = [] ->
  get_file_ext (path_str file_path) <> ".zip"%string ->
  get_file_ext (path_str file_path) <> ".txt"%string ->
  _open_files_at_location file_path = Raise IndexError
  /\ load_from_state
       {| file_locations := file_path :: rest; batch_size := size |}
     = Raise IndexError.
Proof.
  intros Hparts Hzip Htxt.
  apply String.eqb_neq in Hzip, Htxt.
  assert (Hopen : _open_files_at_location file_path = Raise IndexError).
  { unfold _open_files_at_location. now rewrite Hzip, Htxt, Hparts. }
  split; [exact Hopen |].
  unfold load_from_state. simpl. now rewrite Hopen.
Qed.

(** X10: a load over a single [.txt] location that opens and whose
    content gives a Document yields exactly one batch holding that one
    Document, built under the base name of the location, whatever the
    threshold; when the file cannot be opened the load raises the error
    of [open] and yields nothing. *)
Theorem single_text_location (file_path : Path) (size : Z) :
  get_file_ext (path_str file_path) = ".txt"%string ->
  (forall file doc,
      open_text (path_str file_path) = Ok file ->
      _process_file (basename (path_str file_path)) file = Ok [doc] ->
      load_from_state {| file_locations := [file_path]; batch_size := size |}
      = Yield [doc] (Return tt))
  /\ (forall e,
         open_text (path_str file_path) = Err e ->
         load_from_state {| file_locations := [file_path]; batch_size := size |}
         = Raise e).
Proof.
  intros Hext.
  assert (Hzip : String.eqb (get_file_ext (path_str file_path)) ".zip" = false)
    by now rewrite Hext.
  assert (Htxt : String.eqb (get_file_ext (path_str file_path)) ".txt" = true)
    by now rewrite Hext.
  split.
  - intros file doc Hopen Hbuild.
    unfold load_from_state, _open_files_at_location. simpl.
    unfold _open_files_at_location. rewrite Hzip, Htxt, Hopen. simpl.
    rewrite Hbuild. simpl.
    now destruct (1 >=? size).
  - intros e Hopen.
    unfold load_from_state. simpl.
    unfold _open_files_at_location. now rewrite Hzip, Htxt, Hopen.
Qed.

(** X11: with a positive threshold no batch that [load_from_state] yields
    is empty. *)
Theorem batches_not_empty (self : LocalFileConnector) :
  0 < batch_size self ->
  Forall (fun batch => batch <> []) (yielded (load_from_state self)).
Proof.
  intros Hsize.
  assert (Hn : (0 < Z.to_nat (batch_size self))%nat) by lia.
  rewrite (load_from_state_batches self Hsize).
  apply Forall_app. split.
  - eapply Forall_impl; [| exact (full_batches_lengths Hn (produced self))].
    simpl. intros batch Hlen ->. simpl in Hlen. lia.
  - destruct (fatal_error self); [constructor |].
    destruct (remainder _ _); constructor; [discriminate | constructor].
Qed.

(** X12: with a positive threshold n, a load that builds k documents
    yields k / n batches when a fatal error ends it, and one more when it
    ends well and n does not divide k. *)
Theorem number_of_batches (self : LocalFileConnector) :
  0 < batch_size self ->
  let n := Z.to_nat (batch_size self) in
  let k := List.length (produced self) in
  List.length (yielded (load_from_state self))
  = (k / n
     + match fatal_error self with
       | Some _ => 0
       | None => if Nat.eqb (k mod n) 0 then 0 else 1
       end)%nat.
Proof.
  intros Hsize n k.
  assert (Hn : (0 < n)%nat) by (unfold n; lia).
  rewrite (load_from_state_batches self Hsize). fold n.
  rewrite length_app. f_equal.
  - unfold full_batches. now rewrite length_map, length_seq.
  - destruct (fatal_error self); [reflexivity |].
    assert (Hrem : List.length (remainder n (produced self)) = (k mod n)%nat).
    { unfold remainder. rewrite length_skipn. fold k.
      pose proof (Nat.div_mod_eq k n). lia. }
    destruct (remainder n (produced self)) as [| d ds]; simpl in Hrem.
    + now rewrite <- Hrem.
    + now rewrite <- Hrem.
Qed.

(** X13: with a threshold that is zero or negative, every member closes a
    batch: the batches are what the builder returned member by member, so
    a member with a rejected extension gives an empty batch. *)
Theorem nonpositive_threshold_one_batch_per_member
    (self : LocalFileConnector) :
  batch_size self <= 0 ->
  yielded (load_from_state self)
  = build_each (all_members (file_locations self)).
Proof.
  intros Hsize. unfold load_from_state.
  rewrite locations_loop_flat, yielded_gbind.
  destruct (files_loop_each (all_members (file_locations self)) Hsize)
    as [Hy Hr].
  rewrite Hy.
  destruct (returned (files_loop (batch_size self)
                        (all_members (file_locations self)) []))
    as [r |]; [| now rewrite app_nil_r].
  rewrite (Hr r eq_refl). simpl. now rewrite app_nil_r.
Qed.

(** X14: a fatal error ends the load: when the load over a list of
    locations raises, the load over that list followed by any further
    locations is the very same, batch for batch and error for error; the
    further locations are never opened. *)
Theorem fatal_error_ends_the_load (locations further : list Path) (size : Z)
    (e : exn) :
  raised (load_from_state
            {| file_locations := locations; batch_size := size |}) = Some e ->
  load_from_state
    {| file_locations := locations ++ further; batch_size := size |}
  = load_from_state {| file_locations := locations; batch_size := size |}.
Proof.
  intros Hraised. rewrite load_from_state_raised in Hraised.
  unfold fatal_error in Hraised. simpl in Hraised.
  unfold load_from_state. simpl.
  rewrite !locations_loop_flat, all_members_app, files_loop_gbind, gbind_assoc.
  apply gbind_raised_any.
  exact (fatal_error_not_returned size locations Hraised).
Qed.

(** X15: loads compose: when the load over two lists of locations, one
    after the other, meets no fatal error, its documents are the documents
    of the load over the first list followed by those of the load over the
    second, whatever the three thresholds (the batch boundaries may
    differ, the documents and their order do not). *)
Theorem loads_compose (first second : list Path) (size size1 size2 : Z) :
  raised (load_from_state
            {| file_locations := first ++ second; batch_size := size |})
  = None ->
  List.concat
    (yielded (load_from_state
                {| file_locations := first ++ second; batch_size := size |}))
  = List.concat
      (yielded (load_from_state
                  {| file_locations := first; batch_size := size1 |}))
    ++ List.concat
         (yielded (load_from_state
                     {| file_locations := second; batch_size := size2 |})).
Proof.
  intros Hraised. rewrite load_from_state_raised in Hraised.
  unfold fatal_error in Hraised. simpl in Hraised.
  rewrite all_members_app, build_all_gbind in Hraised.
  destruct (snd (build_all (all_members first))) as [e |] eqn:Hfirst;
    [discriminate |].
  simpl in Hraised.
  assert (Hall : forall locations sz,
             snd (build_all (all_members locations)) = None ->
             List.concat
               (yielded (load_from_state
                           {| file_locations := locations;
                              batch_size := sz |}))
             = fst (build_all (all_members locations))).
  { intros locations sz Hnone.
    destruct (load_from_state_order
                {| file_locations := locations; batch_size := sz |})
      as [pending [Hcat Hpending]].
    rewrite (Hpending Hnone), app_nil_r in Hcat. exact Hcat. }
  rewrite (Hall first size1 Hfirst), (Hall second size2 Hraised).
  rewrite Hall.
  - now rewrite all_members_app, build_all_gbind, Hfirst.
  - now rewrite all_members_app, build_all_gbind, Hfirst.
Qed.

End EmitterProperties.

(* ================================================================== *)
(** * More on the question-answering entry point *)

Lemma py_slice_window {A : Type} (l : list A) (start count : Z) :
  0 <= start -> 0 <= count ->
  py_slice l start (start + count)
  = firstn (Z.to_nat count) (skipn (Z.to_nat start) l).
Proof.
  intros Hstart Hcount. unfold py_slice, slice_bound.
  set (len := Z.of_nat (List.length l)).
  assert (Hlen : 0 <= len) by (unfold len; lia).
  destruct (start <? 0) eqn:H1; [apply Z.ltb_lt in H1; lia |].
  destruct (start + count <? 0) eqn:H2; [apply Z.ltb_lt in H2; lia |].
  destruct (Z.le_gt_cases start len) as [Hin | Hout].
  - rewrite (Z.min_l start len) by lia.
    destruct (Z.le_gt_cases (start + count) len) as [Hfit | Hover].
    + rewrite Z.min_l by lia. f_equal. lia.
    + rewrite Z.min_r by lia.
      assert (Hrest : List.length (skipn (Z.to_nat start) l)
                      = Z.to_nat (len - start)).
      { rewrite length_skipn. unfold len. lia. }
      rewrite <- Hrest, firstn_all.
      symmetry. apply firstn_all2. lia.
  - rewrite !Z.min_r by lia. rewrite Z.sub_diag. simpl.
    rewrite (skipn_all2 l); [now destruct (Z.to_nat count) |].
    unfold len in Hout. lia.
Qed.

Lemma py_slice_stop_zero {A : Type} (l : list A) (start : Z) :
  start < 0 -> py_slice l start 0 = [].
Proof.
  intros Hstart. unfold py_slice, slice_bound.
  apply Z.ltb_lt in Hstart as Hneg. rewrite Hneg.
  change (0 <? 0) with false. cbv iota.
  rewrite (Z.min_l 0) by lia.
  replace (Z.to_nat (0 - Z.max 0 (start + Z.of_nat (List.length l))))
    with 0%nat by lia.
  reflexivity.
Qed.

Section SliceFacts.
Context {A : Type}.
Variable n : nat.
Hypothesis n_pos : (0 < n)%nat.

Lemma slices_concat (l : list A) : List.concat (slices n l) = l.
Proof.
  unfold slices. rewrite concat_app.
  rewrite <- (batches_cover n_pos l) at 3. f_equal.
  destruct (remainder n l); simpl; [reflexivity | now rewrite app_nil_r].
Qed.

Lemma slices_length (l : list A) :
  List.length (slices n l)
  = (List.length l / n
     + if Nat.eqb (List.length l mod n) 0 then 0 else 1)%nat.
Proof.
  unfold slices. rewrite length_app. f_equal.
  - unfold full_batches. now rewrite length_map, length_seq.
  - assert (Hrem : List.length (remainder n l) = (List.length l mod n)%nat).
    { unfold remainder. rewrite length_skipn.
      pose proof (Nat.div_mod_eq (List.length l) n). lia. }
    destruct (remainder n l); simpl in Hrem; now rewrite <- Hrem.
Qed.

Lemma slices_index (l : list A) (i : nat) :
  (i < List.length (slices n l))%nat <-> (i * n < List.length l)%nat.
Proof.
  rewrite slices_length.
  pose proof (Nat.div_mod_eq (List.length l) n) as Hdiv.
  pose proof (Nat.mod_upper_bound (List.length l) n ltac:(lia)) as Hmod.
  destruct (Nat.eqb_spec (List.length l mod n) 0) as [Hz | Hnz]; split; nia.
Qed.

Lemma slices_nth (l : list A) (i : nat) :
  (i * n < List.length l)%nat ->
  nth i (slices n l) [] = firstn n (skipn (i * n) l).
Proof.
  intros Hi. unfold slices.
  pose proof (Nat.div_mod_eq (List.length l) n) as Hdiv.
  pose proof (Nat.mod_upper_bound (List.length l) n ltac:(lia)) as Hmod.
  assert (Hfull : List.length (full_batches n l) = (List.length l / n)%nat).
  { unfold full_batches. now rewrite length_map, length_seq. }
  destruct (Nat.lt_ge_cases i (List.length l / n)) as [Hin | Hlast].
  - rewrite app_nth1 by lia. unfold full_batches.
    rewrite (nth_indep _ [] (firstn n (skipn (0 * n) l)))
      by (rewrite length_map, length_seq; exact Hin).
    rewrite (map_nth (fun i => firstn n (skipn (i * n) l))).
    now rewrite seq_nth.
  - assert (Heq : i = (List.length l / n)%nat) by nia. subst i.
    rewrite app_nth2 by lia. rewrite Hfull, Nat.sub_diag.
    pose proof (remainder_short n_pos l) as Hshort.
    assert (Hrem : List.length (remainder n l) = (List.length l mod n)%nat).
    { unfold remainder. rewrite length_skipn. lia. }
    assert (Hwhole : firstn n (skipn (List.length l / n * n) l)
                     = remainder n l).
    { unfold remainder in *. rewrite (Nat.mul_comm (_ / _) n).
      apply firstn_all2. lia. }
    rewrite Hwhole.
    destruct (remainder n l); simpl in *; [lia | reflexivity].
Qed.

End SliceFacts.

Section DirectQAFacts.
Context {qa : QAEnv}.

(** Past the two early exits: the model is obtained, the offset is below
    the number of ranked chunks, and what remains is the call of the
    model, with its handler, and the assembly of the response. *)
Lemma answer_question_past_checks (question : QuestionRequest)
    (user : option User) (search : SearchType) (flow : QueryFlow)
    (ranked : list InferenceChunk) (unranked : option (list InferenceChunk))
    (model : QAModel) :
  query_intent (query question) = Ok (search, flow) ->
  retrieve question user search = Ok (Some ranked, unranked) ->
  get_default_backend_qa_model = Ok model ->
  offset_count question * NUM_GENERATIVE_AI_INPUT_DOCS
  < Z.of_nat (List.length ranked) ->
  ranked <> [] ->
  answer_question question user
  = let chunk_offset :=
      offset_count question * NUM_GENERATIVE_AI_INPUT_DOCS in
    rbind
      (match model_answer_question model (query question)
               (py_slice ranked chunk_offset
                  (chunk_offset + NUM_GENERATIVE_AI_INPUT_DOCS)) with
       | Ok (answer, quotes) => Ok (answer, quotes, None)
       | Err e =>
           if is_exception e then
             Ok (None, None,
                 Some (String.append "Error occurred in call to LLM - "
                         (exn_str e)))
           else Err e
       end)
      (fun outcome =>
         let '(answer, quotes, error_msg) := outcome in
         rbind (chunks_to_search_docs (Some ranked)) (fun top =>
         rbind (chunks_to_search_docs unranked) (fun lower =>
         Ok {| answer := answer;
               quotes := quotes;
               top_ranked_docs := top;
               lower_ranked_docs := lower;
               predicted_flow := flow;
               predicted_search := search;
               error_msg := error_msg |}))).
Proof.
  intros Hintent Hretrieve Hmodel Hbelow Hnonempty.
  unfold answer_question. fold (offset_count question).
  rewrite Hintent. simpl rbind at 1. cbv beta iota.
  rewrite Hretrieve. simpl rbind at 1. cbv beta iota.
  destruct ranked as [| chunk ranked']; [congruence |].
  cbv beta iota delta [falsy]. rewrite Hmodel. simpl rbind at 1.
  assert (Htest : (offset_count question * NUM_GENERATIVE_AI_INPUT_DOCS
                   >=? Z.of_nat (List.length (chunk :: ranked'))) = false).
  { rewrite Z.geb_leb. apply Z.leb_gt. exact Hbelow. }
  cbv zeta. first [rewrite Htest | simpl in Htest; rewrite Htest].
  reflexivity.
Qed.

(** At or past the number of ranked chunks the offset is refused. *)
Lemma answer_question_refused (question : QuestionRequest)
    (user : option User) (search : SearchType) (flow : QueryFlow)
    (ranked : list InferenceChunk) (unranked : option (list InferenceChunk))
    (model : QAModel) :
  query_intent (query question) = Ok (search, flow) ->
  retrieve question user search = Ok (Some ranked, unranked) ->
  get_default_backend_qa_model = Ok model ->
  Z.of_nat (List.length ranked)
  <= offset_count question * NUM_GENERATIVE_AI_INPUT_DOCS ->
  ranked <> [] ->
  answer_question question user = Err offset_too_large.
Proof.
  intros Hintent Hretrieve Hmodel Hpast Hnonempty.
  unfold answer_question. fold (offset_count question).
  rewrite Hintent. simpl rbind at 1. cbv beta iota.
  rewrite Hretrieve. simpl rbind at 1. cbv beta iota.
  destruct ranked as [| chunk ranked']; [congruence |].
  cbv beta iota delta [falsy]. rewrite Hmodel. simpl rbind at 1.
  assert (Htest : (offset_count question * NUM_GENERATIVE_AI_INPUT_DOCS
                   >=? Z.of_nat (List.length (chunk :: ranked'))) = true).
  { rewrite Z.geb_leb. apply Z.leb_le. exact Hpast. }
  cbv zeta. first [rewrite Htest | simpl in Htest; rewrite Htest].
  reflexivity.
Qed.

End DirectQAFacts.

Section DirectQAProperties.
Context {qa : QAEnv}.

(** X16: for an offset count that is not negative and whose product with
    NUM_GENERATIVE_AI_INPUT_DOCS (itself not negative) is below the number
    of ranked chunks, the model is asked about the chunks of the window
    that starts there, at most NUM_GENERATIVE_AI_INPUT_DOCS of them; when
    it answers, the response carries its answer and quotes, no error
    message, and the search documents of all the ranked and of the
    unranked chunks, not of the window alone. *)
Theorem answer_comes_from_the_window (question : QuestionRequest)
    (user : option User) (search : SearchType) (flow : QueryFlow)
    (ranked : list InferenceChunk) (unranked : option (list InferenceChunk))
    (model : QAModel) (a : option string) (qs : option Quotes)
    (top lower : option (list SearchDoc)) :
  query_intent (query question) = Ok (search, flow) ->
  retrieve question user search = Ok (Some ranked, unranked) ->
  get_default_backend_qa_model = Ok model ->
  0 <= NUM_GENERATIVE_AI_INPUT_DOCS ->
  0 <= offset_count question * NUM_GENERATIVE_AI_INPUT_DOCS
    < Z.of_nat (List.length ranked) ->
  model_answer_question model (query question)
    (window ranked (offset_count question)) = Ok (a, qs) ->
  chunks_to_search_docs (Some ranked) = Ok top ->
  chunks_to_search_docs unranked = Ok lower ->
  answer_question question user
  = Ok {| answer := a;
          quotes := qs;
          top_ranked_docs := top;
          lower_ranked_docs := lower;
          predicted_flow := flow;
          predicted_search := search;
          error_msg := None |}.
Proof.
  intros Hintent Hretrieve Hmodel Hnum Hrange Hanswer Htop Hlower.
  assert (Hnonempty : ranked <> []).
  { intros ->. simpl in Hrange. lia. }
  rewrite (answer_question_past_checks question user Hintent Hretrieve Hmodel
             (proj2 Hrange) Hnonempty).
  cbv zeta. rewrite py_slice_window by lia.
  fold (window ranked (offset_count question)).
  rewrite Hanswer. simpl. rewrite Htop, Hlower. reflexivity.
Qed.

(** X17: an exception of the model that is an [Exception] does not leave
    [answer_question]: for an offset in range the response is still
    returned, with no answer and no quotes, with the search documents of
    the ranked and unranked chunks, and with the error message "Error
    occurred in call to LLM - " followed by the text of the exception.
    What the model raises that is not an [Exception] (KeyboardInterrupt,
    SystemExit) is not caught and leaves [answer_question]. *)
Theorem model_failure_is_reported (question : QuestionRequest)
    (user : option User) (search : SearchType) (flow : QueryFlow)
    (ranked : list InferenceChunk) (unranked : option (list InferenceChunk))
    (model : QAModel) (e : exn) :
  query_intent (query question) = Ok (search, flow) ->
  retrieve question user search = Ok (Some ranked, unranked) ->
  get_default_backend_qa_model = Ok model ->
  0 <= NUM_GENERATIVE_AI_INPUT_DOCS ->
  0 <= offset_count question * NUM_GENERATIVE_AI_INPUT_DOCS
    < Z.of_nat (List.length ranked) ->
  model_answer_question model (query question)
    (window ranked (offset_count question)) = Err e ->
  (is_exception e = true ->
   forall top lower,
     chunks_to_search_docs (Some ranked) = Ok top ->
     chunks_to_search_docs unranked = Ok lower ->
     answer_question question user
     = Ok {| answer := None;
             quotes := None;
             top_ranked_docs := top;
             lower_ranked_docs := lower;
             predicted_flow := flow;
             predicted_search := search;
             error_msg :=
               Some (String.append "Error occurred in call to LLM - "
                       (exn_str e)) |})
  /\ (is_exception e = false -> answer_question question user = Err e).
Proof.
  intros Hintent Hretrieve Hmodel Hnum Hrange Hanswer.
  assert (Hnonempty : ranked <> []).
  { intros ->. simpl in Hrange. lia. }
  rewrite (answer_question_past_checks question user Hintent Hretrieve Hmodel
             (proj2 Hrange) Hnonempty).
  cbv zeta. rewrite py_slice_window by lia.
  fold (window ranked (offset_count question)).
  rewrite Hanswer. split.
  - intros Hkind top lower Htop Hlower.
    rewrite Hkind. simpl. rewrite Htop, Hlower. reflexivity.
  - intros Hkind. rewrite Hkind. reflexivity.
Qed.

(** X18: a negative offset is not rejected.  With offset -1 and a
    positive NUM_GENERATIVE_AI_INPUT_DOCS the slice runs from a negative
    start to 0 and is empty: the model is asked about no chunk at all, and
    its answer is returned beside the search documents of all the ranked
    chunks. *)
Theorem offset_minus_one_asks_about_nothing (question : QuestionRequest)
    (user : option User) (search : SearchType) (flow : QueryFlow)
    (ranked : list InferenceChunk) (unranked : option (list InferenceChunk))
    (model : QAModel) (a : option string) (qs : option Quotes)
    (top lower : option (list SearchDoc)) :
  offset question = Some (-1) ->
  0 < NUM_GENERATIVE_AI_INPUT_DOCS ->
  ranked <> [] ->
  query_intent (query question) = Ok (search, flow) ->
  retrieve question user search = Ok (Some ranked, unranked) ->
  get_default_backend_qa_model = Ok model ->
  model_answer_question model (query question) [] = Ok (a, qs) ->
  chunks_to_search_docs (Some ranked) = Ok top ->
  chunks_to_search_docs unranked = Ok lower ->
  answer_question question user
  = Ok {| answer := a;
          quotes := qs;
          top_ranked_docs := top;
          lower_ranked_docs := lower;
          predicted_flow := flow;
          predicted_search := search;
          error_msg := None |}.
Proof.
  intros Hoffset Hnum Hnonempty Hintent Hretrieve Hmodel Hanswer Htop Hlower.
  assert (Hcount : offset_count question = -1).
  { unfold offset_count. now rewrite Hoffset. }
  assert (Hbelow : offset_count question * NUM_GENERATIVE_AI_INPUT_DOCS
                   < Z.of_nat (List.length ranked)) by (rewrite Hcount; lia).
  rewrite (answer_question_past_checks question user Hintent Hretrieve Hmodel
             Hbelow Hnonempty).
  cbv zeta. rewrite Hcount.
  replace (-1 * NUM_GENERATIVE_AI_INPUT_DOCS + NUM_GENERATIVE_AI_INPUT_DOCS)
    with 0 by lia.
  rewrite py_slice_stop_zero by lia.
  rewrite Hanswer. simpl. rewrite Htop, Hlower. reflexivity.
Qed.

(** X19: whenever [answer_question] returns a response, the predicted
    search type and flow in it are those [query_intent] gave for the
    query, and a response that carries an error message carries neither an
    answer nor quotes. *)
Theorem response_invariants (question : QuestionRequest)
    (user : option User) (response : QAResponse) :
  answer_question question user = Ok response ->
  query_intent (query question)
  = Ok (predicted_search response, predicted_flow response)
  /\ (error_msg response <> None ->
      answer response = None /\ quotes response = None).
Proof.
  unfold answer_question. intros H.
  apply rbind_ok in H. destruct H as [[search flow] [Hintent H]].
  apply rbind_ok in H. destruct H as [[ranked unranked] [_ H]].
  destruct (falsy ranked).
  - injection H as <-. simpl. split; [exact Hintent | congruence].
  - apply rbind_ok in H. destruct H as [model [_ H]].
    cbv zeta in H.
    destruct (_ >=? _) in H; [discriminate |].
    apply rbind_ok in H. destruct H as [[[a qs] msg] [Hcall H]].
    apply rbind_ok in H. destruct H as [top [_ H]].
    apply rbind_ok in H. destruct H as [lower [_ H]].
    injection H as <-. simpl. split; [exact Hintent |].
    destruct (model_answer_question _ _ _) as [[a' qs'] | e] in Hcall.
    + injection Hcall as <- <- <-. congruence.
    + destruct (is_exception e); [| discriminate].
      injection Hcall as <- <- <-. now split.
Qed.

(** X20: with a positive NUM_GENERATIVE_AI_INPUT_DOCS and a retrieval
    that gives ranked chunks, cut the ranked chunks into successive slices
    of NUM_GENERATIVE_AI_INPUT_DOCS chunks, the last one shorter when the
    number does not divide.  The slices, one after the other, are the
    ranked chunks; for an offset count o that is not negative,
    [answer_question] asks the model about slice number o when there is
    one, and returns its answer; and it raises the "offset too large"
    ValueError when there is none.  So successive offsets show the model
    every chunk once and none twice, until the offset is refused. *)
Theorem successive_offsets_tile_the_chunks (question : QuestionRequest)
    (user : option User) (search : SearchType) (flow : QueryFlow)
    (ranked : list InferenceChunk) (unranked : option (list InferenceChunk))
    (model : QAModel) :
  0 < NUM_GENERATIVE_AI_INPUT_DOCS ->
  0 <= offset_count question ->
  ranked <> [] ->
  query_intent (query question) = Ok (search, flow) ->
  retrieve question user search = Ok (Some ranked, unranked) ->
  get_default_backend_qa_model = Ok model ->
  let shown := slices (Z.to_nat NUM_GENERATIVE_AI_INPUT_DOCS) ranked in
  let o := Z.to_nat (offset_count question) in
  List.concat shown = ranked
  /\ ((o < List.length shown)%nat ->
      forall a qs top lower,
        model_answer_question model (query question) (nth o shown [])
        = Ok (a, qs) ->
        chunks_to_search_docs (Some ranked) = Ok top ->
        chunks_to_search_docs unranked = Ok lower ->
        answer_question question user
        = Ok {| answer := a;
                quotes := qs;
                top_ranked_docs := top;
                lower_ranked_docs := lower;
                predicted_flow := flow;
                predicted_search := search;
                error_msg := None |})
  /\ ((List.length shown <= o)%nat ->
      answer_question question user = Err offset_too_large).
Proof.
  intros Hnum Hcount Hnonempty Hintent Hretrieve Hmodel shown o.
  subst shown.
  set (n := Z.to_nat NUM_GENERATIVE_AI_INPUT_DOCS) in *.
  assert (Hn : (0 < n)%nat) by (unfold n; lia).
  assert (Hprod : offset_count question * NUM_GENERATIVE_AI_INPUT_DOCS
                  = Z.of_nat (o * n)) by (unfold o, n; lia).
  split; [apply (slices_concat Hn) | split].
  - intros Hin a qs top lower Hanswer Htop Hlower.
    apply (slices_index Hn) in Hin.
    rewrite (slices_nth Hn _ _ Hin) in Hanswer.
    rewrite (answer_question_past_checks question user Hintent Hretrieve
               Hmodel) by (try exact Hnonempty; lia).
    cbv zeta. rewrite py_slice_window by lia.
    replace (Z.to_nat (offset_count question * NUM_GENERATIVE_AI_INPUT_DOCS))
      with (o * n)%nat by lia.
    fold n. rewrite Hanswer. simpl. rewrite Htop, Hlower. reflexivity.
  - intros Hout.
    assert (Hpast : ~ (o * n < List.length ranked)%nat).
    { intros Hlt. apply (slices_index Hn) in Hlt. lia. }
    apply (answer_question_refused question user Hintent Hretrieve Hmodel);
      [lia | exact Hnonempty].
Qed.

End DirectQAProperties.

(* ================================================================== *)
(** * The further properties on sample inputs *)

Lemma sidecar_link_and_text_witness :
  @_process_file sample_env "a.txt"
    (text_file
       [ join [_METADATA_FLAG; "{"; dquote; "link"; dquote; ": 7, ";
               dquote; "k"; dquote; ": "; dquote; _METADATA_FLAG; dquote;
               "}  "; nl]%string;
         "body"%string ])
  = Ok [ built "a.txt" (JInt 7) "body" ].
Proof.
  apply (@sidecar_link_and_text sample_env "a.txt"
           (StrLine
              (join [_METADATA_FLAG; "{"; dquote; "link"; dquote; ": 7, ";
                     dquote; "k"; dquote; ": "; dquote; _METADATA_FLAG;
                     dquote; "}  "; nl]%string))
           [StrLine "body"]
           (join [_METADATA_FLAG; "{"; dquote; "link"; dquote; ": 7, ";
                  dquote; "k"; dquote; ": "; dquote; _METADATA_FLAG; dquote;
                  "}  "; nl]%string)
           ["body"%string]
           [("link"%string, JInt 7); ("k"%string, JStr _METADATA_FLAG)]);
    vm_compute; reflexivity.
Defined.

Lemma sidecar_failures_witness :
  @_process_file sample_env "a.txt"
    (Yield (StrLine (String.append _METADATA_FLAG "{oops"))
       (Raise (External "OSError" "read failed")))
  = Err RefJson.JSONDecodeError.
Proof.
  apply (proj1 (@sidecar_failures sample_env "a.txt"
                  (StrLine (String.append _METADATA_FLAG "{oops"))
                  (String.append _METADATA_FLAG "{oops")
                  eq_refl eq_refl eq_refl)).
  vm_compute; reflexivity.
Defined.

Lemma undecodable_line_aborts_member_witness :
  @_process_file sample_env "a.txt"
    (Yield (StrLine "fine")
       (Yield (BytesLine [Byte.xc3; Byte.x28]) (Return tt)))
  = Err UnicodeDecodeError.
Proof.
  apply (proj2 (@undecodable_line_aborts_member sample_env "a.txt"
                  [StrLine "fine"] ["fine"%string]
                  (BytesLine [Byte.xc3; Byte.x28]) (Return tt)
                  UnicodeDecodeError eq_refl eq_refl eq_refl eq_refl)).
Defined.

Lemma location_without_parts_raises_witness :
  @load_from_state sample_env (sample_connector [EmptyString; "notes.txt"%string] 2)
  = Raise IndexError.
Proof.
  apply (proj2 (@location_without_parts_raises sample_env
                  (make_path EmptyString) [make_path "notes.txt"] 2
                  eq_refl ltac:(discriminate) ltac:(discriminate))).
Defined.

Lemma single_text_location_witness :
  @load_from_state archive_env
    {| file_locations := [make_path "inbox//plain.txt"]; batch_size := 16 |}
  = Yield [ built "plain.txt" (JStr EmptyString)
              (String.append (String.append "first" nl) "second") ]
      (Return tt).
Proof.
  apply (proj1 (@single_text_location archive_env
                  (make_path "inbox//plain.txt") 16 eq_refl)
           (text_file [String.append "first" nl; "second"%string]));
    vm_compute; reflexivity.
Defined.

Lemma batches_not_empty_witness :
  Forall (fun batch => batch <> [])
    (yielded (@load_from_state sample_env
                (sample_connector ["notes.txt"; "docs.zip"]%string 2))).
Proof.
  apply (@batches_not_empty sample_env
           (sample_connector ["notes.txt"; "docs.zip"]%string 2)).
  reflexivity.
Defined.

Lemma number_of_batches_witness :
  List.length
    (yielded (@load_from_state sample_env
                (sample_connector ["notes.txt"; "docs.zip"]%string 2)))
  = 2%nat.
Proof.
  apply (@number_of_batches sample_env
           (sample_connector ["notes.txt"; "docs.zip"]%string 2)).
  reflexivity.
Defined.

Lemma nonpositive_threshold_one_batch_per_member_witness :
  map (@List.length Document)
    (yielded (@load_from_state sample_env
                (sample_connector ["docs.zip"]%string 0)))
  = [1; 0; 1]%nat.
Proof.
  rewrite (@nonpositive_threshold_one_batch_per_member sample_env
             (sample_connector ["docs.zip"]%string 0)).
  - reflexivity.
  - discriminate.
Defined.

Lemma fatal_error_ends_the_load_witness :
  @load_from_state sample_env
    {| file_locations :=
         map make_path ["notes.txt"; "bad.zip"]%string
         ++ map make_path ["docs.zip"]%string;
       batch_size := 1 |}
  = @load_from_state sample_env
      {| file_locations := map make_path ["notes.txt"; "bad.zip"]%string;
         batch_size := 1 |}.
Proof.
  apply (@fatal_error_ends_the_load sample_env
           (map make_path ["notes.txt"; "bad.zip"]%string)
           (map make_path ["docs.zip"]%string) 1 BadZipFile).
  reflexivity.
Defined.

Lemma loads_compose_witness :
  List.concat
    (yielded (@load_from_state sample_env
                {| file_locations :=
                     map make_path ["notes.txt"]%string
                     ++ map make_path ["docs.zip"]%string;
                   batch_size := 2 |}))
  = List.concat
      (yielded (@load_from_state sample_env
                  {| file_locations := map make_path ["notes.txt"]%string;
                     batch_size := 1 |}))
    ++ List.concat
         (yielded (@load_from_state sample_env
                     {| file_locations := map make_path ["docs.zip"]%string;
                        batch_size := 5 |})).
Proof.
  apply (@loads_compose sample_env
           (map make_path ["notes.txt"]%string)
           (map make_path ["docs.zip"]%string) 2 1 5).
  reflexivity.
Defined.

Lemma answer_comes_from_the_window_witness :
  @answer_question (sample_qa (Some ["c1"; "c2"; "c3"; "c4"; "c5"]%string) None 2)
    (sample_question (Some ["c1"; "c2"; "c3"; "c4"; "c5"]%string) None 2 (Some 1))
    None
  = Ok (@Build_QAResponse
          (sample_qa (Some ["c1"; "c2"; "c3"; "c4"; "c5"]%string) None 2)
          (Some "what is new"%string) (Some ["c3"; "c4"]%string)
          (Some ["c1"; "c2"; "c3"; "c4"; "c5"]%string) None tt SEMANTIC None).
Proof.
  apply (@answer_comes_from_the_window
           (sample_qa (Some ["c1"; "c2"; "c3"; "c4"; "c5"]%string) None 2)
           (sample_question (Some ["c1"; "c2"; "c3"; "c4"; "c5"]%string) None 2
              (Some 1))
           None SEMANTIC tt ["c1"; "c2"; "c3"; "c4"; "c5"]%string None tt);
    try reflexivity.
  - discriminate.
  - vm_compute. split; [discriminate | reflexivity].
Defined.

Lemma model_failure_is_reported_witness :
  @answer_question (failing_qa (Some ["c1"%string]) 5)
    (failing_question (Some ["c1"%string]) 5 None) None
  = Ok (@Build_QAResponse (failing_qa (Some ["c1"%string]) 5)
          None None (Some ["c1"%string]) (Some []) tt KEYWORD
          (Some "Error occurred in call to LLM - timed out"%string)).
Proof.
  refine (proj1 (@model_failure_is_reported (failing_qa (Some ["c1"%string]) 5)
                   (failing_question (Some ["c1"%string]) 5 None)
                   None KEYWORD tt ["c1"%string] (Some []) tt
                   (External "TimeoutError" "timed out")
                   eq_refl eq_refl eq_refl _ _ eq_refl)
            eq_refl (Some ["c1"%string]) (Some []) eq_refl eq_refl).
  - discriminate.
  - vm_compute. split; [discriminate | reflexivity].
Defined.

Lemma offset_minus_one_asks_about_nothing_witness :
  @answer_question (sample_qa (Some ["c1"; "c2"; "c3"]%string) None 5)
    (sample_question (Some ["c1"; "c2"; "c3"]%string) None 5 (Some (-1))) None
  = Ok (@Build_QAResponse (sample_qa (Some ["c1"; "c2"; "c3"]%string) None 5)
          (Some "what is new"%string) (Some [])
          (Some ["c1"; "c2"; "c3"]%string) None tt SEMANTIC None).
Proof.
  apply (@offset_minus_one_asks_about_nothing
           (sample_qa (Some ["c1"; "c2"; "c3"]%string) None 5)
           (sample_question (Some ["c1"; "c2"; "c3"]%string) None 5 (Some (-1)))
           None SEMANTIC tt ["c1"; "c2"; "c3"]%string None tt);
    try reflexivity.
  discriminate.
Defined.

Lemma response_invariants_witness :
  @query_intent (failing_qa (Some ["c1"%string]) 5) "what is new"
  = Ok (KEYWORD, tt).
Proof.
  apply (proj1 (@response_invariants (failing_qa (Some ["c1"%string]) 5)
                  (failing_question (Some ["c1"%string]) 5 None) None
                  (@Build_QAResponse (failing_qa (Some ["c1"%string]) 5)
                     None None (Some ["c1"%string]) (Some []) tt KEYWORD
                     (Some "Error occurred in call to LLM - timed out"%string))
                  eq_refl)).
Defined.

Lemma successive_offsets_tile_the_chunks_witness :
  @answer_question (sample_qa (Some ["c1"; "c2"; "c3"; "c4"; "c5"]%string) None 2)
    (sample_question (Some ["c1"; "c2"; "c3"; "c4"; "c5"]%string) None 2 (Some 2))
    None
  = Ok (@Build_QAResponse
          (sample_qa (Some ["c1"; "c2"; "c3"; "c4"; "c5"]%string) None 2)
          (Some "what is new"%string) (Some ["c5"%string])
          (Some ["c1"; "c2"; "c3"; "c4"; "c5"]%string) None tt SEMANTIC None)
  /\ @answer_question
       (sample_qa (Some ["c1"; "c2"; "c3"; "c4"; "c5"]%string) None 2)
       (sample_question (Some ["c1"; "c2"; "c3"; "c4"; "c5"]%string) None 2
          (Some 3))
       None
     = Err offset_too_large.
Proof.
  split.
  - refine (proj1 (proj2
              (@successive_offsets_tile_the_chunks
                 (sample_qa (Some ["c1"; "c2"; "c3"; "c4"; "c5"]%string) None 2)
                 (sample_question (Some ["c1"; "c2"; "c3"; "c4"; "c5"]%string)
                    None 2 (Some 2))
                 None SEMANTIC tt ["c1"; "c2"; "c3"; "c4"; "c5"]%string None tt
                 eq_refl _ _ eq_refl eq_refl eq_refl))
              _ (Some "what is new"%string) (Some ["c5"%string])
              (Some ["c1"; "c2"; "c3"; "c4"; "c5"]%string) None
              eq_refl eq_refl eq_refl).
    + discriminate.
    + discriminate.
    + vm_compute. lia.
  - refine (proj2 (proj2
              (@successive_offsets_tile_the_chunks
                 (sample_qa (Some ["c1"; "c2"; "c3"; "c4"; "c5"]%string) None 2)
                 (sample_question (Some ["c1"; "c2"; "c3"; "c4"; "c5"]%string)
                    None 2 (Some 3))
                 None SEMANTIC tt ["c1"; "c2"; "c3"; "c4"; "c5"]%string None tt
                 eq_refl _ _ eq_refl eq_refl eq_refl))
              _).
    + discriminate.
    + discriminate.
    + vm_compute. lia.
Defined.
